(** * PointFM: a point-wise factorization-machine recommender

    Shallow embedding of [voice_rec_sys/Recommender/FMRecommender.py]
    (class [PointFM]: [__init__], [forward], [fit], [predict]) and the
    properties of its scoring function, its training loop and its
    inference wrapper.

    Conventions of the embedding.
    - Tensor elements and Python floats are two carriers [T] and [P] with
      the operations the code applies to them ([FloatOps]); no algebraic
      law is assumed of them.  They are instantiated with the real numbers
      (ideal arithmetic) and with IEEE binary32/binary64 ([SpecFloat]).
    - A batch of indices is a one-dimensional [LongTensor]; an [n x f]
      tensor is a list of [n] rows, an [n x 1] tensor a list of [n]
      scalars.  A bias table [nn.Embedding(n, 1)] is a list of [n] scalars.
    - What PyTorch raises is an [exn]; a call that can raise returns a
      [result].  [fit] runs in a state-and-exception monad over the model
      object and a log of what the trainer did.
    - Library code that the file calls but does not define
      ([nn.BCEWithLogitsLoss], autograd together with [optim.SGD.step],
      the random source of [nn.init.normal_]) is a section variable;
      [nn.MSELoss], the norms and the embedding lookup are written out. *)

From Stdlib Require Import String ZArith List Bool Arith Lia.
From Stdlib Require Import Reals Lra.
From Stdlib Require Import Floats.SpecFloat.
Import ListNotations.

Set Implicit Arguments.

(** ** Exceptions and results *)

Inductive exn : Type :=
| ValueError (msg : string)  (* raised by [fit] itself *)
| IndexError                 (* embedding index out of range *)
| TypeError                  (* [None] passed as the indices of an embedding *)
| AttributeError             (* attribute that [__init__] did not create; method of [None] *)
| ShapeError                 (* RuntimeError: shapes cannot be broadcast *)
| DeviceError                (* RuntimeError: tensors on different devices *)
| CudaError                  (* [.cuda()] on a machine without a usable GPU *)
| InvalidLearningRate.       (* ValueError of [optim.SGD]: negative learning rate *)

(** The exceptions whose Python class is [ValueError]: the configuration
    errors of [fit]. *)
Definition is_value_error (e : exn) : bool :=
  match e with
  | ValueError _ | InvalidLearningRate => true
  | _ => false
  end.

Inductive result (A : Type) : Type :=
| Ok (a : A)
| Raise (e : exn).

Arguments Ok {A} a.
Arguments Raise {A} e.

Definition rbind {A B} (r : result A) (k : A -> result B) : result B :=
  match r with
  | Ok a => k a
  | Raise e => Raise e
  end.

Declare Scope result_scope.
Delimit Scope result_scope with result.
Notation "x <- r ;; k" := (rbind r (fun x => k))
  (at level 61, r at next level, right associativity) : result_scope.

Definition is_ok {A} (r : result A) : bool :=
  match r with Ok _ => true | Raise _ => false end.

(** [getattr]: an attribute that exists only on some models. *)
Definition attr {A} (o : option A) : result A :=
  match o with
  | Some a => Ok a
  | None => Raise AttributeError
  end.

(** ** Floating-point carriers *)

Class FloatOps (F : Type) : Type := {
  f0 : F;                     (* the literal [0.] *)
  fadd : F -> F -> F;
  fsub : F -> F -> F;
  fmul : F -> F -> F;
  fabs : F -> F;
  fsqrt : F -> F;
  fltb : F -> F -> bool;      (* [<] *)
  fisnan : F -> bool          (* [torch.isnan] *)
}.

(** ** Devices and tensors *)

Inductive device : Type := CPU | CUDA.

Definition device_eqb (a b : device) : bool :=
  match a, b with
  | CPU, CPU | CUDA, CUDA => true
  | _, _ => false
  end.

(** The process-wide PyTorch state the code reads. *)
Record torch_env : Type := {
  cuda_is_available : bool;   (* [torch.cuda.is_available()] *)
  is_grad_enabled : bool      (* [torch.is_grad_enabled()], on by default *)
}.

(** A one-dimensional tensor of indices. *)
Record itensor : Type := {
  idata : list Z;
  idev : device
}.

(** A one-dimensional tensor of floats; [frequires_grad] is its
    [requires_grad] flag. *)
Record ftensor (T : Type) : Type := {
  fdata : list T;
  fdev : device;
  frequires_grad : bool
}.

(** [t.cpu()] copies to host memory and keeps the autograd link. *)
Definition cpu {T} (t : ftensor T) : ftensor T :=
  {| fdata := fdata t; fdev := CPU; frequires_grad := frequires_grad t |}.

(** [t.cuda()] *)
Definition icuda (env : torch_env) (t : itensor) : result itensor :=
  if cuda_is_available env
  then Ok {| idata := idata t; idev := CUDA |}
  else Raise CudaError.

Definition fcuda {T} (env : torch_env) (t : ftensor T) : result (ftensor T) :=
  if cuda_is_available env
  then Ok {| fdata := fdata t; fdev := CUDA; frequires_grad := frequires_grad t |}
  else Raise CudaError.

(** [x.cuda()] where [x] may be [None]. *)
Definition opt_cuda (env : torch_env) (o : option itensor) : result itensor :=
  match o with
  | Some t => icuda env t
  | None => Raise AttributeError
  end.

(** ** Element-wise list operations *)

Fixpoint zip_with {A B C} (f : A -> B -> C) (xs : list A) (ys : list B) : list C :=
  match xs, ys with
  | x :: xs', y :: ys' => f x y :: zip_with f xs' ys'
  | _, _ => []
  end.

(** Out-of-place binary operation along the batch dimension, with
    PyTorch's broadcasting of a size-1 operand. *)
Definition broadcast2 {A B C} (f : A -> B -> C) (xs : list A) (ys : list B)
  : result (list C) :=
  if Nat.eqb (length xs) (length ys) then Ok (zip_with f xs ys)
  else match xs, ys with
       | [x], _ => Ok (map (f x) ys)
       | _, [y] => Ok (map (fun x => f x y) xs)
       | _, _ => Raise ShapeError
       end.

(** ** Embedding lookup *)

Section Lookup.
Context {A : Type}.

Definition lookup_row (w : list A) (i : Z) : result A :=
  if (i <? 0)%Z then Raise IndexError
  else match nth_error w (Z.to_nat i) with
       | Some r => Ok r
       | None => Raise IndexError
       end.

Fixpoint lookup_rows (w : list A) (idx : list Z) : result (list A) :=
  match idx with
  | [] => Ok []
  | i :: idx' =>
      (r <- lookup_row w i ;;
       rs <- lookup_rows w idx' ;;
       Ok (r :: rs))%result
  end.

(** [nn.Embedding.__call__]: [w] is the weight, on device [wdev]. *)
Definition embedding (w : list A) (wdev : device) (idx : option itensor)
  : result (list A) :=
  match idx with
  | None => Raise TypeError
  | Some t =>
      if device_eqb (idev t) wdev then lookup_rows w (idata t)
      else Raise DeviceError
  end.

(** The caller's obligation: the indices are on the table's device and
    within the table. *)
Definition in_range (w : list A) (i : Z) : bool :=
  (0 <=? i)%Z && (i <? Z.of_nat (length w))%Z.

Definition valid_index (w : list A) (wdev : device) (t : itensor) : bool :=
  device_eqb (idev t) wdev && forallb (in_range w) (idata t).

(** Row [i] of a table, for an index known to be in range. *)
Definition row_of (dflt : A) (w : list A) (i : Z) : A :=
  nth (Z.to_nat i) w dflt.
End Lookup.

(** ** The model object *)

Section Model.
Context {T : Type} {TO : FloatOps T}.   (* tensor elements (float32) *)
Context {P : Type} {PO : FloatOps P}.   (* Python floats *)

(** The random source that [nn.init.normal_] draws from. *)
Variable randn : nat -> T.

(** The learnable parameters, [self.parameters()].  The side-feature
    tables are attributes that exist only when [__init__] created them. *)
Record params : Type := {
  embed_user : list (list T);
  embed_item : list (list T);
  u_bias : list T;
  i_bias : list T;
  embed_gender : option (list (list T));
  g_bias : option (list T);
  embed_age : option (list (list T));
  a_bias : option (list T);
  bias_ : T
}.

(** The attributes of the model object.  [reg_1] and [reg_2] only ever
    multiply a tensor, so they are kept at the tensors' element type. *)
Record PointFM : Type := {
  epochs : Z;
  lr : P;
  reg_1 : T;
  reg_2 : T;
  feature : Z;
  loss_type : string;
  optimizer : string;
  early_stop : bool;
  weights : params;
  model_device : device;   (* where [self.cuda()] / [self.cpu()] put the parameters *)
  training : bool          (* [self.train()] / [self.eval()] *)
}.

Definition set_weights (m : PointFM) (w : params) : PointFM :=
  {| epochs := epochs m; lr := lr m; reg_1 := reg_1 m; reg_2 := reg_2 m;
     feature := feature m; loss_type := loss_type m; optimizer := optimizer m;
     early_stop := early_stop m; weights := w;
     model_device := model_device m; training := training m |}.

Definition set_device (m : PointFM) (d : device) : PointFM :=
  {| epochs := epochs m; lr := lr m; reg_1 := reg_1 m; reg_2 := reg_2 m;
     feature := feature m; loss_type := loss_type m; optimizer := optimizer m;
     early_stop := early_stop m; weights := weights m;
     model_device := d; training := training m |}.

Definition set_training (m : PointFM) (b : bool) : PointFM :=
  {| epochs := epochs m; lr := lr m; reg_1 := reg_1 m; reg_2 := reg_2 m;
     feature := feature m; loss_type := loss_type m; optimizer := optimizer m;
     early_stop := early_stop m; weights := weights m;
     model_device := model_device m; training := b |}.



(** *** [__init__] *)

(** [nn.Embedding(rows, cols)] followed by [nn.init.normal_]: a
    [rows x cols] table filled from the random source, [start] draws in. *)
Definition normal_ (start rows cols : nat) : list (list T) :=
  map (fun r => map (fun c => randn (start + r * cols + c)) (seq 0 cols))
      (seq 0 rows).

(** [nn.Embedding(rows, 1)] followed by [nn.init.constant_(w, 0.0)]. *)
Definition constant_0 (rows : nat) : list T := repeat f0 rows.

(** The arguments [initializer] and [gpuid] leave no trace on the object
    ([gpuid] goes to the process environment).  A new module is on the CPU
    and in training mode. *)
Definition PointFM_init (user_num item_num factors : nat) (epochs : Z) (lr : P)
    (reg_1 reg_2 : T) (loss_type optimizer : string) (feature : Z)
    (early_stop : bool) : PointFM :=
  let s_item := user_num * factors in
  let s_side := s_item + item_num * factors in
  let gender := (feature =? 0)%Z || (feature =? 2)%Z in
  let age := (feature =? 1)%Z || (feature =? 2)%Z in
  {| epochs := epochs; lr := lr; reg_1 := reg_1; reg_2 := reg_2;
     feature := feature; loss_type := loss_type; optimizer := optimizer;
     early_stop := early_stop;
     weights :=
       {| embed_user := normal_ 0 user_num factors;
          embed_item := normal_ s_item item_num factors;
          u_bias := constant_0 user_num;
          i_bias := constant_0 item_num;
          embed_gender := if gender then Some (normal_ s_side 2 factors) else None;
          g_bias := if gender then Some (constant_0 2) else None;
          embed_age :=
            if age
            then Some (normal_ (if gender then s_side + 2 * factors else s_side) 3 factors)
            else None;
          a_bias := if age then Some (constant_0 3) else None;
          bias_ := f0 |};
     model_device := CPU;
     training := true |}.

(** What [__init__] establishes about the tables, and what gradient steps
    keep: a bias table has one entry per row of its embedding table; the
    gender tables exist exactly when [feature] is 0 or 2, the age tables
    exactly when it is 1 or 2. *)
Definition side_ok (wanted : bool) (e : option (list (list T)))
    (b : option (list T)) : bool :=
  match e, b with
  | Some te, Some tb => wanted && Nat.eqb (length tb) (length te)
  | None, None => negb wanted
  | _, _ => false
  end.

Definition constructed (m : PointFM) : bool :=
  let w := weights m in
  Nat.eqb (length (u_bias w)) (length (embed_user w))
  && Nat.eqb (length (i_bias w)) (length (embed_item w))
  && side_ok ((feature m =? 0)%Z || (feature m =? 2)%Z) (embed_gender w) (g_bias w)
  && side_ok ((feature m =? 1)%Z || (feature m =? 2)%Z) (embed_age w) (a_bias w).

(** *** [forward] *)

(** [(a * b).sum(dim=-1)] on one pair of rows. *)
Definition dot (a b : list T) : T :=
  fold_left fadd (zip_with fmul a b) f0.

(** [(a * b).sum(dim=-1, keepdim=True)] *)
Definition rowdot (a b : list (list T)) : result (list T) :=
  broadcast2 dot a b.

(** [pred += x]: the in-place sum keeps the shape of [pred], so only [x]
    may be broadcast. *)
Definition iadd (pred x : list T) : result (list T) :=
  if Nat.eqb (length pred) (length x) then Ok (zip_with fadd pred x)
  else match x with
       | [v] => Ok (map (fun p => fadd p v) pred)
       | _ => Raise ShapeError
       end.

Definition forward (env : torch_env) (m : PointFM) (user item : itensor)
    (gender age : option itensor) : result (ftensor T) :=
  let w := weights m in
  let d := model_device m in
  (embed_user_ <- embedding (embed_user w) d (Some user) ;;
   embed_item_ <- embedding (embed_item w) d (Some item) ;;
   pred <- rowdot embed_user_ embed_item_ ;;
   ub <- embedding (u_bias w) d (Some user) ;;
   ib <- embedding (i_bias w) d (Some item) ;;
   ubib <- broadcast2 fadd ub ib ;;
   biases <- broadcast2 fadd ubib [bias_ w] ;;
   pred <- iadd pred biases ;;
   pred <-
     (if (feature m =? 0)%Z then
        tg <- attr (embed_gender w) ;;
        embed_gender_ <- embedding tg d gender ;;
        gu <- rowdot embed_gender_ embed_user_ ;;
        gi <- rowdot embed_gender_ embed_item_ ;;
        x <- broadcast2 fadd gu gi ;;
        pred <- iadd pred x ;;
        bg <- attr (g_bias w) ;;
        gb <- embedding bg d gender ;;
        iadd pred gb
      else if (feature m =? 1)%Z then
        ta <- attr (embed_age w) ;;
        embed_age_ <- embedding ta d age ;;
        au <- rowdot embed_age_ embed_user_ ;;
        ai <- rowdot embed_age_ embed_item_ ;;
        x <- broadcast2 fadd au ai ;;
        pred <- iadd pred x ;;
        ba <- attr (a_bias w) ;;
        ab <- embedding ba d age ;;
        iadd pred ab
      else if (feature m =? 2)%Z then
        tg <- attr (embed_gender w) ;;
        embed_gender_ <- embedding tg d gender ;;
        ta <- attr (embed_age w) ;;
        embed_age_ <- embedding ta d age ;;
        gu <- rowdot embed_gender_ embed_user_ ;;
        gi <- rowdot embed_gender_ embed_item_ ;;
        x <- broadcast2 fadd gu gi ;;
        pred <- iadd pred x ;;
        au <- rowdot embed_age_ embed_user_ ;;
        ai <- rowdot embed_age_ embed_item_ ;;
        y <- broadcast2 fadd au ai ;;
        pred <- iadd pred y ;;
        ag <- rowdot embed_age_ embed_gender_ ;;
        pred <- iadd pred ag ;;
        bg <- attr (g_bias w) ;;
        gb <- embedding bg d gender ;;
        ba <- attr (a_bias w) ;;
        ab <- embedding ba d age ;;
        z <- broadcast2 fadd gb ab ;;
        iadd pred z
      else Ok pred) ;;
   (* [pred.view(-1)]: the [n x 1] column read as a vector; it is computed
      from the parameters, which require grad, so it requires grad whenever
      gradient mode is on *)
   Ok {| fdata := pred; fdev := d; frequires_grad := is_grad_enabled env |})%result.

(** *** [predict] *)

Definition predict (env : torch_env) (m : PointFM) (u i : itensor)
    (g a : option itensor) : result (ftensor T) :=
  (if (feature m =? 0)%Z then
     pred <- forward env m u i g None ;; Ok (cpu pred)
   else if (feature m =? 1)%Z then
     pred <- forward env m u i None a ;; Ok (cpu pred)
   else if (feature m =? 2)%Z then
     pred <- forward env m u i g a ;; Ok (cpu pred)
   else
     pred <- forward env m u i None None ;; Ok (cpu pred))%result.

(** *** [fit] *)

(** [nn.BCEWithLogitsLoss(reduction='sum')], and [loss.backward()]
    followed by [optimizer.step()] of [optim.SGD(self.parameters(), lr)]:
    one gradient step, at rate [lr], on the loss seen as a function of the
    parameters.  [tensor_item] is [loss.item()], [py_1e_5] the literal
    [1e-5]. *)
Variable bce_with_logits_sum : list T -> list T -> result T.
Variable sgd_step : P -> (params -> result T) -> params -> params.
Variable tensor_item : T -> P.
Variable py_1e_5 : P.

(** One element of the loader: [(user, item, gender, age, label)]; the
    slot of a side-feature that is not collected may hold [None]. *)
Record batch : Type := {
  b_user : itensor;
  b_item : itensor;
  b_gender : option itensor;
  b_age : option itensor;
  b_label : ftensor T
}.

(** A loader can be iterated once per epoch: [train_loader k] are the
    batches of its [k]-th iteration (counted from 0). *)
Definition loader : Type := nat -> list batch.

Inductive criterion : Type := BCEWithLogitsLoss | MSELoss.

(** [nn.MSELoss(reduction='sum')] *)
Definition mse_sum (input target : list T) : result T :=
  (sq <- broadcast2 (fun x y => fmul (fsub x y) (fsub x y)) input target ;;
   Ok (fold_left fadd sq f0))%result.

Definition apply_criterion (c : criterion) (prediction label : ftensor T)
  : result T :=
  if device_eqb (fdev prediction) (fdev label) then
    match c with
    | BCEWithLogitsLoss => bce_with_logits_sum (fdata prediction) (fdata label)
    | MSELoss => mse_sum (fdata prediction) (fdata label)
    end
  else Raise DeviceError.

(** [w.norm(p=1)] and [w.norm()] of a whole table. *)
Definition norm_1 (w : list (list T)) : T :=
  fold_left fadd (map fabs (concat w)) f0.

Definition norm_2 (w : list (list T)) : T :=
  fsqrt (fold_left fadd (map (fun x => fmul x x) (concat w)) f0).

(** Lines 159-166: the forward pass with the side-features of the mode. *)
Definition fit_forward (env : torch_env) (m : PointFM) (user item : itensor)
    (gender age : option itensor) : result (ftensor T) :=
  if (feature m =? 0)%Z then forward env m user item gender None
  else if (feature m =? 1)%Z then forward env m user item None age
  else if (feature m =? 2)%Z then forward env m user item gender age
  else forward env m user item None None.

(** Lines 168-180: the criterion plus the penalties. *)
Definition fit_loss (c : criterion) (m : PointFM) (prediction label : ftensor T)
  : result T :=
  let w := weights m in
  (loss <- apply_criterion c prediction label ;;
   let loss := fadd loss (fmul (reg_1 m) (fadd (norm_1 (embed_item w)) (norm_1 (embed_user w)))) in
   let loss := fadd loss (fmul (reg_2 m) (fadd (norm_2 (embed_item w)) (norm_2 (embed_user w)))) in
   if (feature m =? 0)%Z then
     tg <- attr (embed_gender w) ;;
     let loss := fadd loss (fmul (reg_1 m) (norm_1 tg)) in
     Ok (fadd loss (fmul (reg_2 m) (norm_2 tg)))
   else if (feature m =? 1)%Z then
     ta <- attr (embed_age w) ;;
     let loss := fadd loss (fmul (reg_1 m) (norm_1 ta)) in
     Ok (fadd loss (fmul (reg_2 m) (norm_2 ta)))
   else if (feature m =? 2)%Z then
     tg <- attr (embed_gender w) ;;
     ta <- attr (embed_age w) ;;
     let loss := fadd loss (fmul (reg_1 m) (fadd (norm_1 tg) (norm_1 ta))) in
     Ok (fadd loss (fmul (reg_2 m) (fadd (norm_2 tg) (norm_2 ta))))
   else Ok loss)%result.

(** The per-batch training loss, from the batch already on the device. *)
Definition batch_loss (env : torch_env) (c : criterion) (m : PointFM)
    (user item : itensor) (gender age : option itensor) (label : ftensor T)
  : result T :=
  (prediction <- fit_forward env m user item gender age ;;
   fit_loss c m prediction label)%result.

(** What the trainer did, in order. *)
Inductive event : Type :=
| EvModelTo (d : device)   (* [self.cuda()] or [self.cpu()] *)
| EvEpoch (epoch : nat)    (* the loader is wrapped and iterated for [epoch] *)
| EvBatch                  (* a batch was drawn from the loader *)
| EvZeroGrad               (* [self.zero_grad()] *)
| EvBackward               (* [loss.backward()] *)
| EvStep                   (* [optimizer.step()] *)
| EvPrint (s : string).

Record fit_state : Type := {
  model : PointFM;
  log : list event
}.

(** State and exceptions: a raised exception keeps the state reached. *)
Definition M (A : Type) : Type := fit_state -> result A * fit_state.

Definition ret {A} (a : A) : M A := fun s => (Ok a, s).

Definition bind {A B} (c : M A) (k : A -> M B) : M B :=
  fun s => match c s with
           | (Ok a, s') => k a s'
           | (Raise e, s') => (Raise e, s')
           end.

Definition raise {A} (e : exn) : M A := fun s => (Raise e, s).

Definition lift {A} (r : result A) : M A := fun s => (r, s).

Definition emit (ev : event) : M unit :=
  fun s => (Ok tt, {| model := model s; log := log s ++ [ev] |}).

Definition get_model : M PointFM := fun s => (Ok (model s), s).

Definition put_model (m : PointFM) : M unit :=
  fun s => (Ok tt, {| model := m; log := log s |}).

Declare Scope fit_scope.
Delimit Scope fit_scope with fit.
Notation "x <- c ;; k" := (bind c (fun x => k))
  (at level 61, c at next level, right associativity) : fit_scope.
Notation "c ;; k" := (bind c (fun _ => k))
  (at level 61, right associativity) : fit_scope.

(** Lines 147-156: the batch is moved with [.cuda()]. *)
Definition batch_to_cuda (env : torch_env) (m : PointFM) (b : batch)
  : result (itensor * itensor * ftensor T * option itensor * option itensor) :=
  (user <- icuda env (b_user b) ;;
   item <- icuda env (b_item b) ;;
   label <- fcuda env (b_label b) ;;
   if (feature m =? 0)%Z then
     gender <- opt_cuda env (b_gender b) ;;
     Ok (user, item, label, Some gender, b_age b)
   else if (feature m =? 1)%Z then
     age <- opt_cuda env (b_age b) ;;
     Ok (user, item, label, b_gender b, Some age)
   else if (feature m =? 2)%Z then
     gender <- opt_cuda env (b_gender b) ;;
     age <- opt_cuda env (b_age b) ;;
     Ok (user, item, label, Some gender, Some age)
   else Ok (user, item, label, b_gender b, b_age b))%result.

Definition nan_message : string :=
  "Loss=Nan or Infinity: current settings does not fit the recommender".

(** Lines 146-189: the body of the loop over the batches. *)
Definition train_batch (env : torch_env) (c : criterion) (b : batch)
    (current_loss : P) : M P :=
  (emit EvBatch ;;
   m <- get_model ;;
   moved <- lift (batch_to_cuda env m b) ;;
   let '(user, item, label, gender, age) := moved in
   emit EvZeroGrad ;;
   loss <- lift (batch_loss env c m user item gender age label) ;;
   if fisnan loss then raise (ValueError nan_message)
   else
     emit EvBackward ;;
     put_model (set_weights m
       (sgd_step (lr m)
          (fun w => batch_loss env c (set_weights m w) user item gender age label)
          (weights m))) ;;
     emit EvStep ;;
     ret (fadd current_loss (tensor_item loss)))%fit.

Fixpoint batch_loop (env : torch_env) (c : criterion) (bs : list batch)
    (current_loss : P) : M P :=
  match bs with
  | [] => ret current_loss
  | b :: bs' =>
      (current_loss <- train_batch env c b current_loss ;;
       batch_loop env c bs' current_loss)%fit
  end.

(** Lines 140-189: one epoch up to the end of its batches; the result is
    [current_loss]. *)
Definition run_epoch (env : torch_env) (c : criterion) (train_loader : loader)
    (epoch : nat) : M P :=
  (m <- get_model ;;
   put_model (set_training m true) ;;
   emit (EvEpoch epoch) ;;
   batch_loop env c (train_loader (epoch - 1)) f0)%fit.

Definition stop_message : string := "Satisfy early stop mechanism".

(** Lines 139-197: the loop over the epochs that remain, [last_loss] being
    the total of the previous one. *)
Fixpoint epoch_loop (env : torch_env) (c : criterion) (train_loader : loader)
    (es : list nat) (last_loss : P) : M unit :=
  match es with
  | [] => ret tt
  | epoch :: es' =>
      (current_loss <- run_epoch env c train_loader epoch ;;
       m <- get_model ;;
       put_model (set_training m false) ;;
       let delta_loss := fsub current_loss last_loss in
       if fltb (fabs delta_loss) py_1e_5 && early_stop m
       then emit (EvPrint stop_message)
       else epoch_loop env c train_loader es' current_loss)%fit
  end.

Definition invalid_loss_message (loss_type : string) : string :=
  String.append "Invalid loss type: " loss_type.

(** Lines 131-136 *)
Definition criterion_of (loss_type : string) : result criterion :=
  if String.eqb loss_type "CL" then Ok BCEWithLogitsLoss
  else if String.eqb loss_type "SL" then Ok MSELoss
  else Raise (ValueError (invalid_loss_message loss_type)).

(** Lines 124-127 *)
Definition fit_device (env : torch_env) : device :=
  if cuda_is_available env then CUDA else CPU.

(** Line 129: the constructor of [optim.SGD] refuses a negative learning
    rate, [if lr < 0.0: raise ValueError(...)]; the parameter list is never
    empty, [bias_] is always in it. *)
Definition sgd_init (lr : P) : result unit :=
  if fltb lr f0 then Raise InvalidLearningRate else Ok tt.

Definition fit (env : torch_env) (train_loader : loader) : M unit :=
  (m <- get_model ;;
   put_model (set_device m (fit_device env)) ;;
   emit (EvModelTo (fit_device env)) ;;
   m <- get_model ;;
   lift (sgd_init (lr m)) ;;
   c <- lift (criterion_of (loss_type m)) ;;
   epoch_loop env c train_loader (seq 1 (Z.to_nat (epochs m))) f0)%fit.

(** [fit] on a model object: the exception raised, if any, the model as
    the call leaves it, and the log. *)
Definition run_fit (env : torch_env) (m : PointFM) (train_loader : loader)
  : result unit * fit_state :=
  fit env train_loader {| model := m; log := [] |}.

(** Observations on a log. *)
Definition is_epoch (ev : event) : bool :=
  match ev with EvEpoch _ => true | _ => false end.

Definition is_batch (ev : event) : bool :=
  match ev with EvBatch => true | _ => false end.

Definition is_update (ev : event) : bool :=
  match ev with EvBackward | EvStep => true | _ => false end.

Definition count_events (p : event -> bool) (l : list event) : nat :=
  length (filter p l).

(** ** Calls of [predict]

    [mode_gender] and [mode_age] are the side-feature arguments that
    [predict] hands to [forward] in the model's mode; a call omits a
    required one when the mode reads an argument left at its default
    [None]. *)

Definition is_some {A} (o : option A) : bool :=
  match o with Some _ => true | None => false end.

Definition mode_gender (m : PointFM) (g : option itensor) : option itensor :=
  if (feature m =? 0)%Z || (feature m =? 2)%Z then g else None.

Definition mode_age (m : PointFM) (a : option itensor) : option itensor :=
  if (feature m =? 1)%Z || (feature m =? 2)%Z then a else None.

Definition omits_required (m : PointFM) (g a : option itensor) : bool :=
  if (feature m =? 0)%Z then negb (is_some g)
  else if (feature m =? 1)%Z then negb (is_some a)
  else if (feature m =? 2)%Z then negb (is_some g) || negb (is_some a)
  else false.

(** A side-feature argument that is given is a valid batch of [n]
    indices into table [w]. *)
Definition valid_if_given {A} (w : list A) (wdev : device) (n : nat)
    (o : option itensor) : bool :=
  match o with
  | Some t => valid_index w wdev t && Nat.eqb (length (idata t)) n
  | None => true
  end.

(** ** The scoring rule in the words of the specification

    The score of one example, from the rows and biases that its indices
    select.  The sums are grouped as [forward] accumulates them, since the
    carrier's addition need not be associative. *)

Definition spec_base_score (w : params) (u i : Z) : T :=
  let eu := row_of [] (embed_user w) u in
  let ei := row_of [] (embed_item w) i in
  fadd (dot eu ei)
       (fadd (fadd (row_of f0 (u_bias w) u) (row_of f0 (i_bias w) i)) (bias_ w)).

Definition side_table {A} (o : option (list A)) : list A :=
  match o with Some t => t | None => [] end.

Definition spec_score_gender_age (w : params) (u i g a : Z) : T :=
  let eu := row_of [] (embed_user w) u in
  let ei := row_of [] (embed_item w) i in
  let eg := row_of [] (side_table (embed_gender w)) g in
  let ea := row_of [] (side_table (embed_age w)) a in
  let base := spec_base_score w u i in
  let gender_cross := fadd (dot eg eu) (dot eg ei) in
  let age_cross := fadd (dot ea eu) (dot ea ei) in
  let age_gender := dot ea eg in
  let side_bias :=
    fadd (row_of f0 (side_table (g_bias w)) g) (row_of f0 (side_table (a_bias w)) a) in
  fadd (fadd (fadd (fadd base gender_cross) age_cross) age_gender) side_bias.

End Model.

Arguments params T : clear implicits.
Arguments PointFM T P : clear implicits.
Arguments batch T : clear implicits.
Arguments loader T : clear implicits.
Arguments fit_state T P : clear implicits.

(** ** Instances of the carriers *)

(** Exact arithmetic: the real numbers, without rounding, overflow or
    NaN.  This is not the arithmetic of the code, which computes in
    binary32 and binary64 (below); a statement made at this instance is a
    statement about exact arithmetic and says so. *)
#[export] Instance R_FloatOps : FloatOps R := {|
  f0 := 0%R;
  fadd := Rplus;
  fsub := Rminus;
  fmul := Rmult;
  fabs := Rabs;
  fsqrt := sqrt;
  fltb := fun x y => if Rlt_dec x y then true else false;
  fisnan := fun _ => false
|}.

(** IEEE 754 binary32, the element type of the model's tensors, and
    binary64, Python's [float]; both round to nearest, ties to even. *)
Record binary32 : Type := B32 { b32 : spec_float }.
Record binary64 : Type := B64 { b64 : spec_float }.

Definition sf_isnan (x : spec_float) : bool :=
  match x with S754_nan => true | _ => false end.

Definition sf_isinf (x : spec_float) : bool :=
  match x with S754_infinity _ => true | _ => false end.

#[export] Instance binary32_FloatOps : FloatOps binary32 := {|
  f0 := B32 (S754_zero false);
  fadd := fun x y => B32 (SFadd 24 128 (b32 x) (b32 y));
  fsub := fun x y => B32 (SFsub 24 128 (b32 x) (b32 y));
  fmul := fun x y => B32 (SFmul 24 128 (b32 x) (b32 y));
  fabs := fun x => B32 (SFabs (b32 x));
  fsqrt := fun x => B32 (SFsqrt 24 128 (b32 x));
  fltb := fun x y => SFltb (b32 x) (b32 y);
  fisnan := fun x => sf_isnan (b32 x)
|}.

#[export] Instance binary64_FloatOps : FloatOps binary64 := {|
  f0 := B64 (S754_zero false);
  fadd := fun x y => B64 (SFadd 53 1024 (b64 x) (b64 y));
  fsub := fun x y => B64 (SFsub 53 1024 (b64 x) (b64 y));
  fmul := fun x y => B64 (SFmul 53 1024 (b64 x) (b64 y));
  fabs := fun x => B64 (SFabs (b64 x));
  fsqrt := fun x => B64 (SFsqrt 53 1024 (b64 x));
  fltb := fun x y => SFltb (b64 x) (b64 y);
  fisnan := fun x => sf_isnan (b64 x)
|}.

(** Integers and powers of two as floats. *)
Definition f32_of_Z (z : Z) : binary32 := B32 (binary_normalize 24 128 z 0 false).
Definition f32_pow2 (e : Z) : binary32 := B32 (binary_normalize 24 128 1 e false).
Definition f64_of_Z (z : Z) : binary64 := B64 (binary_normalize 53 1024 z 0 false).

(** [loss.item()]: every binary32 value is a binary64 value. *)
Definition f32_item (x : binary32) : binary64 :=
  match b32 x with
  | S754_finite s m e => B64 (binary_normalize 53 1024 (cond_Zopp s (Zpos m)) e s)
  | y => B64 y
  end.

(** The literal [1e-5]: the double nearest to 1/100000. *)
Definition f64_1e_5 : binary64 :=
  B64 (SFdiv 53 1024 (b64 (f64_of_Z 1)) (b64 (f64_of_Z 100000))).

(** ** Concrete models and batches

    Tensors hold binary32 numbers and Python floats are binary64. *)

Module Demo.

(** A fixed sequence standing for the draws of [nn.init.normal_]. *)
Definition demo_randn (k : nat) : binary32 := f32_of_Z (Z.of_nat k + 1).

(** [PointFM(2, 2, factors=2, epochs, lr=0., reg_1=2**-10, reg_2=2**-10,
    loss_type, feature=feature, early_stop=early_stop)] *)
Definition model_of (feature : Z) (loss_type : string) (epochs : Z)
    (early_stop : bool) : PointFM binary32 binary64 :=
  PointFM_init demo_randn 2 2 2 epochs (f64_of_Z 0) (f32_pow2 (-10))
    (f32_pow2 (-10)) loss_type "sgd" feature early_stop.

(** The gradient step at learning rate 0 leaves the parameters alone. *)
Definition sgd_rate_0 (lr : binary64)
    (loss : params binary32 -> result binary32) (w : params binary32)
  : params binary32 := w.

(** A criterion for the runs that never reach the classification loss. *)
Definition bce_unused (input target : list binary32) : result binary32 :=
  Raise (ValueError "BCEWithLogitsLoss is not part of this run").

Definition gpu_env : torch_env :=
  {| cuda_is_available := true; is_grad_enabled := true |}.

Definition cpu_env : torch_env :=
  {| cuda_is_available := false; is_grad_enabled := true |}.

Definition indices (d : device) (l : list Z) : itensor :=
  {| idata := l; idev := d |}.

Definition labels (d : device) (l : list binary32) : ftensor binary32 :=
  {| fdata := l; fdev := d; frequires_grad := false |}.

(** One batch of two examples, as a CPU data loader yields it. *)
Definition two_examples : batch binary32 :=
  {| b_user := indices CPU [0; 1]%Z;
     b_item := indices CPU [1; 0]%Z;
     b_gender := Some (indices CPU [1; 0]%Z);
     b_age := Some (indices CPU [2; 0]%Z);
     b_label := labels CPU [f32_of_Z 1; f32_of_Z 0] |}.

(** One example whose regression target is 2**100: the squared error
    exceeds the largest binary32 number. *)
Definition huge_label : batch binary32 :=
  {| b_user := indices CPU [0]%Z;
     b_item := indices CPU [0]%Z;
     b_gender := None;
     b_age := None;
     b_label := labels CPU [f32_pow2 100] |}.

Definition loader_of (bs : list (batch binary32)) : loader binary32 :=
  fun _ => bs.

(** The state in which [fit] enters its epoch loop. *)
Definition at_loop_entry (env : torch_env) (m : PointFM binary32 binary64)
  : fit_state binary32 binary64 :=
  {| model := set_device m (fit_device env);
     log := [EvModelTo (fit_device env)] |}.

(** The first epoch of a run, at learning rate 0 with the regression
    loss. *)
Definition first_epoch (m : PointFM binary32 binary64)
    (bs : list (batch binary32))
  : result binary64 * fit_state binary32 binary64 :=
  run_epoch bce_unused sgd_rate_0 f32_item gpu_env MSELoss (loader_of bs) 1
    (at_loop_entry gpu_env m).

Definition total_of (r : result binary64) : binary64 :=
  match r with Ok x => x | Raise _ => f0 end.

Definition scores_of (r : result (ftensor binary32)) : ftensor binary32 :=
  match r with Ok t => t | Raise _ => labels CPU [] end.

(** The index columns of [two_examples]. *)
Definition users : itensor := indices CPU [0; 1]%Z.
Definition items : itensor := indices CPU [1; 0]%Z.
Definition genders : itensor := indices CPU [1; 0]%Z.
Definition ages : itensor := indices CPU [2; 0]%Z.




End Demo.

(** ** Scores, calls and logs in every mode *)

Section Modes.
Context {T : Type} {TO : FloatOps T} {P : Type}.

(** The score of one example in mode 0 (lines 105-108) and in mode 1
    (lines 109-112), grouped as [forward] accumulates it. *)
Definition score_gender (w : params T) (u i g : Z) : T :=
  let eu := row_of [] (embed_user w) u in
  let ei := row_of [] (embed_item w) i in
  let eg := row_of [] (side_table (embed_gender w)) g in
  fadd (fadd (spec_base_score w u i) (fadd (dot eg eu) (dot eg ei)))
       (row_of f0 (side_table (g_bias w)) g).

Definition score_age (w : params T) (u i a : Z) : T :=
  let eu := row_of [] (embed_user w) u in
  let ei := row_of [] (embed_item w) i in
  let ea := row_of [] (side_table (embed_age w)) a in
  fadd (fadd (spec_base_score w u i) (fadd (dot ea eu) (dot ea ei)))
       (row_of f0 (side_table (a_bias w)) a).

(** The score of one example in the mode of the model. *)
Definition score_by_mode (m : PointFM T P) (u i g a : Z) : T :=
  if (feature m =? 0)%Z then score_gender (weights m) u i g
  else if (feature m =? 1)%Z then score_age (weights m) u i a
  else if (feature m =? 2)%Z then spec_score_gender_age (weights m) u i g a
  else spec_base_score (weights m) u i.

(** A side-feature argument that is given and is a valid batch of [n]
    indices into table [w]. *)
Definition given_valid {A} (w : list A) (wdev : device) (n : nat)
    (o : option itensor) : bool :=
  match o with
  | Some t => valid_index w wdev t && Nat.eqb (length (idata t)) n
  | None => false
  end.

(** The side-feature arguments that the mode reads are given and valid. *)
Definition mode_args_valid (m : PointFM T P) (n : nat)
    (g a : option itensor) : bool :=
  let w := weights m in
  let d := model_device m in
  if (feature m =? 0)%Z then given_valid (side_table (embed_gender w)) d n g
  else if (feature m =? 1)%Z then given_valid (side_table (embed_age w)) d n a
  else if (feature m =? 2)%Z then
    given_valid (side_table (embed_gender w)) d n g
    && given_valid (side_table (embed_age w)) d n a
  else true.

(** Entry [k] of an optional batch of indices. *)
Definition side_index (o : option itensor) (k : nat) : Z :=
  nth k (match o with Some t => idata t | None => [] end) 0%Z.

(** [t[k:k+1]]: example [k] of a batch, as a batch of one. *)
Definition example_at (k : nat) (t : itensor) : itensor :=
  {| idata := firstn 1 (skipn k (idata t)); idev := idev t |}.

(** The attributes that only [__init__] writes. *)
Definition same_config (m m' : PointFM T P) : Prop :=
  epochs m' = epochs m /\ lr m' = lr m /\ reg_1 m' = reg_1 m
  /\ reg_2 m' = reg_2 m /\ feature m' = feature m
  /\ loss_type m' = loss_type m /\ optimizer m' = optimizer m
  /\ early_stop m' = early_stop m.

(** A batch of the loader holds [None] where the mode reads a
    side-feature. *)
Definition batch_omits_required (m : PointFM T P) (b : batch T) : bool :=
  if (feature m =? 0)%Z then negb (is_some (b_gender b))
  else if (feature m =? 1)%Z then negb (is_some (b_age b))
  else if (feature m =? 2)%Z then
    negb (is_some (b_gender b)) || negb (is_some (b_age b))
  else false.

Definition is_step (ev : event) : bool :=
  match ev with EvStep => true | _ => false end.

Definition is_backward (ev : event) : bool :=
  match ev with EvBackward => true | _ => false end.

Definition is_zero_grad (ev : event) : bool :=
  match ev with EvZeroGrad => true | _ => false end.



End Modes.

(** ** Signs of binary floats *)

(** A float that is not below zero: NaN, a zero of either sign, a positive
    number or plus infinity; that is, [x < 0.] is false. *)
Definition sf_not_negative (x : spec_float) : bool :=
  match x with
  | S754_nan => true
  | S754_zero _ => true
  | S754_infinity s => negb s
  | S754_finite s _ _ => negb s
  end.

Module Cases.
Import Demo.

(** A regression target that is NaN. *)
Definition nan_label : batch binary32 :=
  {| b_user := indices CPU [0]%Z;
     b_item := indices CPU [0]%Z;
     b_gender := None;
     b_age := None;
     b_label := labels CPU [B32 S754_nan] |}.

(** The model as [fit] has it when the first batch arrives. *)
Definition in_first_epoch (env : torch_env) (m : PointFM binary32 binary64)
  : PointFM binary32 binary64 :=
  set_training (set_device m (fit_device env)) true.

(** The batch [two_examples] from a loader that collects no age. *)
Definition no_age_batch : batch binary32 :=
  {| b_user := users; b_item := items; b_gender := Some genders;
     b_age := None; b_label := labels CPU [f32_of_Z 1; f32_of_Z 0] |}.

Definition fit_of (env : torch_env) (m : PointFM binary32 binary64)
    (bs : list (batch binary32))
  : result unit * fit_state binary32 binary64 :=
  run_fit bce_unused sgd_rate_0 f32_item f64_1e_5 env m (loader_of bs).

(** [PointFM(2, 2, factors=2, epochs=5, lr=0., reg_1=0., reg_2=0.,
    loss_type='SL', feature=3)] and a batch whose target is the score the
    model gives: user 0 is [[1, 2]], item 0 is [[5, 6]], the score is 17. *)
Definition unpenalized_model : PointFM binary32 binary64 :=
  PointFM_init demo_randn 2 2 2 5 (f64_of_Z 0) (f32_of_Z 0) (f32_of_Z 0)
    "SL" "sgd" 3 true.

Definition exact_target : batch binary32 :=
  {| b_user := indices CPU [0]%Z;
     b_item := indices CPU [0]%Z;
     b_gender := None;
     b_age := None;
     b_label := labels CPU [f32_of_Z 17] |}.

(** The model [model_of feature loss_type epochs early_stop] with another
    learning rate. *)
Definition with_lr (lr : binary64) (m : PointFM binary32 binary64)
  : PointFM binary32 binary64 :=
  {| epochs := epochs m; lr := lr; reg_1 := reg_1 m; reg_2 := reg_2 m;
     feature := feature m; loss_type := loss_type m; optimizer := optimizer m;
     early_stop := early_stop m; weights := weights m;
     model_device := model_device m; training := training m |}.



End Cases.

(** * Properties *)

(** ** Lists, broadcasting and lookups *)

Section ListFacts.
Context {A B C : Type}.

Lemma zip_with_length (f : A -> B -> C) xs ys :
  length xs = length ys -> length (zip_with f xs ys) = length xs.
Proof.
  revert ys; induction xs as [|x xs IH]; intros [|y ys] H; simpl in *;
    try discriminate; auto.
Qed.

Lemma nth_error_zip_with (f : A -> B -> C) xs ys k x y :
  nth_error xs k = Some x -> nth_error ys k = Some y ->
  nth_error (zip_with f xs ys) k = Some (f x y).
Proof.
  revert ys k; induction xs as [|x0 xs IH]; intros [|y0 ys] [|k] Hx Hy;
    simpl in *; try discriminate.
  - congruence.
  - eauto.
Qed.

Lemma broadcast2_same_length (f : A -> B -> C) xs ys :
  length xs = length ys -> broadcast2 f xs ys = Ok (zip_with f xs ys).
Proof.
  intros H; unfold broadcast2.
  now rewrite (proj2 (Nat.eqb_eq _ _) H).
Qed.

Lemma broadcast2_scalar_r (f : A -> B -> C) xs y :
  broadcast2 f xs [y] = Ok (map (fun x => f x y) xs).
Proof.
  unfold broadcast2.
  destruct xs as [|x [|x' xs]]; reflexivity.
Qed.

Lemma in_range_same_length (w : list A) (w' : list B) i :
  length w' = length w -> in_range w' i = in_range w i.
Proof. intros H; unfold in_range; now rewrite H. Qed.

Lemma lookup_row_in_range (d : A) w i :
  in_range w i = true -> lookup_row w i = Ok (row_of d w i).
Proof.
  unfold in_range, lookup_row, row_of; intros H.
  apply andb_prop in H as [Hlo Hhi].
  apply Z.leb_le in Hlo; apply Z.ltb_lt in Hhi.
  destruct (Z.ltb_spec i 0) as [Hneg|_]; [lia|].
  destruct (nth_error w (Z.to_nat i)) as [r|] eqn:E.
  - now rewrite (nth_error_nth _ _ d E).
  - apply nth_error_None in E; lia.
Qed.

Lemma lookup_rows_in_range (d : A) w idx :
  forallb (in_range w) idx = true ->
  lookup_rows w idx = Ok (map (row_of d w) idx).
Proof.
  induction idx as [|i idx IH]; simpl; intros H; [reflexivity|].
  apply andb_prop in H as [Hi Hidx].
  now rewrite (lookup_row_in_range d _ _ Hi), (IH Hidx).
Qed.

Lemma embedding_valid (d : A) w wdev t :
  valid_index w wdev t = true ->
  embedding w wdev (Some t) = Ok (map (row_of d w) (idata t)).
Proof.
  unfold valid_index, embedding; intros H.
  apply andb_prop in H as [Hdev Hidx].
  rewrite Hdev. now apply lookup_rows_in_range.
Qed.

Lemma valid_index_same_length (w : list A) (w' : list B) wdev t :
  length w' = length w -> valid_index w wdev t = true ->
  valid_index w' wdev t = true.
Proof.
  unfold valid_index; intros Hlen H.
  apply andb_prop in H as [Hdev Hidx]; rewrite Hdev; simpl.
  rewrite forallb_forall in *; intros i Hi.
  rewrite (in_range_same_length w w' i Hlen); auto.
Qed.

Lemma lookup_rows_length (w : list A) idx rs :
  lookup_rows w idx = Ok rs -> length rs = length idx.
Proof.
  revert rs; induction idx as [|i idx IH]; simpl; intros rs H.
  - now inversion H.
  - destruct (lookup_row w i); simpl in H; [|discriminate].
    destruct (lookup_rows w idx) as [rs'|]; simpl in H; [|discriminate].
    inversion H; simpl; f_equal; auto.
Qed.

Lemma embedding_length (w : list A) wdev t rs :
  embedding w wdev (Some t) = Ok rs -> length rs = length (idata t).
Proof.
  unfold embedding; destruct (device_eqb _ _); [|discriminate].
  apply lookup_rows_length.
Qed.

End ListFacts.

(** ** The scoring function *)

Section Scoring.
Context {T : Type} {TO : FloatOps T} {P : Type}.
Implicit Types (m : PointFM T P) (env : torch_env).

Lemma iadd_same_length (pred x : list T) :
  length pred = length x -> iadd pred x = Ok (zip_with fadd pred x).
Proof.
  intros H; unfold iadd. now rewrite (proj2 (Nat.eqb_eq _ _) H).
Qed.

Lemma iadd_length (pred x r : list T) :
  iadd pred x = Ok r -> length r = length pred.
Proof.
  unfold iadd; destruct (Nat.eqb_spec (length pred) (length x)) as [E|_].
  - intros H; inversion H; now apply zip_with_length.
  - destruct x as [|v [|]]; intros H; inversion H. apply length_map.
Qed.

Lemma normal__length (randn : nat -> T) start rows cols :
  length (normal_ randn start rows cols) = rows.
Proof. unfold normal_. now rewrite length_map, length_seq. Qed.

(** [__init__] builds a model that is [constructed], in every mode. *)
Lemma PointFM_init_constructed (randn : nat -> T) user_num item_num factors
    epochs (lr : P) reg_1 reg_2 loss_type optimizer feature early_stop :
  constructed (PointFM_init randn user_num item_num factors epochs lr reg_1
                 reg_2 loss_type optimizer feature early_stop) = true.
Proof.
  unfold constructed, PointFM_init, constant_0; cbn - [normal_ Nat.mul Nat.add].
  rewrite !repeat_length, !normal__length, !Nat.eqb_refl.
  destruct (feature =? 0)%Z, (feature =? 1)%Z, (feature =? 2)%Z;
    cbn - [normal_ Nat.mul Nat.add];
    rewrite ?normal__length; reflexivity.
Qed.

Lemma constructed_bias_lengths m :
  constructed m = true ->
  length (u_bias (weights m)) = length (embed_user (weights m))
  /\ length (i_bias (weights m)) = length (embed_item (weights m)).
Proof.
  unfold constructed; intros H.
  repeat (apply andb_prop in H as [H ?]).
  split; now apply Nat.eqb_eq.
Qed.

Lemma constructed_gender m :
  constructed m = true -> (feature m = 0 \/ feature m = 2)%Z ->
  exists tg bg, embed_gender (weights m) = Some tg
                /\ g_bias (weights m) = Some bg /\ length bg = length tg.
Proof.
  unfold constructed; intros H Hf.
  repeat (apply andb_prop in H as [H ?]).
  unfold side_ok in *.
  destruct (embed_gender (weights m)) as [tg|], (g_bias (weights m)) as [bg|];
    try discriminate.
  - exists tg, bg; repeat split.
    match goal with
    | Hs : _ && (length bg =? length tg) = true |- _ =>
        apply andb_prop in Hs as [_ Hs]; now apply Nat.eqb_eq
    end.
  - exfalso. destruct Hf as [E|E]; rewrite E in *; simpl in *; discriminate.
Qed.

Lemma constructed_age m :
  constructed m = true -> (feature m = 1 \/ feature m = 2)%Z ->
  exists ta ba, embed_age (weights m) = Some ta
                /\ a_bias (weights m) = Some ba /\ length ba = length ta.
Proof.
  unfold constructed; intros H Hf.
  repeat (apply andb_prop in H as [H ?]).
  unfold side_ok in *.
  destruct (embed_age (weights m)) as [ta|], (a_bias (weights m)) as [ba|];
    try discriminate.
  - exists ta, ba; repeat split.
    match goal with
    | Hs : _ && (length ba =? length ta) = true |- _ =>
        apply andb_prop in Hs as [_ Hs]; now apply Nat.eqb_eq
    end.
  - exfalso. destruct Hf as [E|E]; rewrite E in *; simpl in *; discriminate.
Qed.

Lemma constructed_no_side m :
  constructed m = true ->
  feature m <> 0%Z -> feature m <> 1%Z -> feature m <> 2%Z ->
  embed_gender (weights m) = None /\ g_bias (weights m) = None
  /\ embed_age (weights m) = None /\ a_bias (weights m) = None.
Proof.
  unfold constructed; intros H H0 H1 H2.
  repeat (apply andb_prop in H as [H ?]).
  apply Z.eqb_neq in H0, H1, H2.
  rewrite H0, H1, H2 in *; simpl in *.
  unfold side_ok in *.
  destruct (embed_gender (weights m)), (g_bias (weights m)),
           (embed_age (weights m)), (a_bias (weights m));
    simpl in *; try discriminate; auto.
Qed.

(** Lengths of the intermediate columns, and the steps of [forward] on
    operands of one length. *)
Ltac solve_len :=
  repeat (rewrite ?length_map; try rewrite zip_with_length by solve_len);
  congruence.

Ltac step_forward :=
  first
    [ rewrite broadcast2_scalar_r
    | rewrite broadcast2_same_length by solve_len
    | rewrite iadd_same_length by solve_len ];
  cbn [rbind].

(** C1. On a model built with feature 2, [forward] (and [predict]) of a
    batch of in-range user, item, gender and age indices returns one score
    per example, in batch order; the score is the base score
    dot(eu, ei) + user_bias + item_bias + global_bias, plus the gender and
    age cross terms with user and item, plus age.gender, plus
    gender_bias + age_bias. *)
Theorem forward_gender_age_scores env m user item gender age :
  feature m = 2%Z ->
  constructed m = true ->
  valid_index (embed_user (weights m)) (model_device m) user = true ->
  valid_index (embed_item (weights m)) (model_device m) item = true ->
  valid_index (side_table (embed_gender (weights m))) (model_device m) gender = true ->
  valid_index (side_table (embed_age (weights m))) (model_device m) age = true ->
  length (idata item) = length (idata user) ->
  length (idata gender) = length (idata user) ->
  length (idata age) = length (idata user) ->
  exists out,
    forward env m user item (Some gender) (Some age) = Ok out
    /\ predict env m user item (Some gender) (Some age) = Ok (cpu out)
    /\ length (fdata out) = length (idata user)
    /\ forall k u i g a,
         nth_error (idata user) k = Some u ->
         nth_error (idata item) k = Some i ->
         nth_error (idata gender) k = Some g ->
         nth_error (idata age) k = Some a ->
         nth_error (fdata out) k = Some (spec_score_gender_age (weights m) u i g a).
Proof.
  intros Hf Hc Hu Hi Hg Ha Li Lg La.
  destruct (constructed_bias_lengths m Hc) as [Lub Lib].
  destruct (constructed_gender m Hc (or_intror Hf)) as (tg & bg & Etg & Ebg & Lbg).
  destruct (constructed_age m Hc (or_intror Hf)) as (ta & ba & Eta & Eba & Lba).
  rewrite Etg in Hg; rewrite Eta in Ha; simpl side_table in Hg, Ha.
  pose proof (valid_index_same_length _ (u_bias (weights m)) _ _ Lub Hu) as Hub.
  pose proof (valid_index_same_length _ (i_bias (weights m)) _ _ Lib Hi) as Hib.
  pose proof (valid_index_same_length _ bg _ _ Lbg Hg) as Hgb.
  pose proof (valid_index_same_length _ ba _ _ Lba Ha) as Hab.
  assert (Hfw : exists data,
    forward env m user item (Some gender) (Some age)
    = Ok {| fdata := data; fdev := model_device m;
            frequires_grad := is_grad_enabled env |}
    /\ length data = length (idata user)
    /\ forall k u i g a,
         nth_error (idata user) k = Some u ->
         nth_error (idata item) k = Some i ->
         nth_error (idata gender) k = Some g ->
         nth_error (idata age) k = Some a ->
         nth_error data k = Some (spec_score_gender_age (weights m) u i g a)).
  { unfold forward, rowdot. rewrite Hf, Etg, Ebg, Eta, Eba.
    change ((2 =? 0)%Z) with false; change ((2 =? 1)%Z) with false;
      change ((2 =? 2)%Z) with true.
    cbn [attr rbind].
    rewrite (embedding_valid [] _ _ _ Hu), (embedding_valid [] _ _ _ Hi),
      (embedding_valid f0 _ _ _ Hub), (embedding_valid f0 _ _ _ Hib),
      (embedding_valid [] _ _ _ Hg), (embedding_valid [] _ _ _ Ha),
      (embedding_valid f0 _ _ _ Hgb), (embedding_valid f0 _ _ _ Hab).
    cbn [rbind].
    repeat step_forward.
    eexists; split; [reflexivity|]. split; [solve_len|].
    intros k u i g a Ku Ki Kg Ka.
    unfold spec_score_gender_age, spec_base_score.
    rewrite Etg, Ebg, Eta, Eba; simpl side_table.
    repeat (first [ apply nth_error_zip_with
                  | apply map_nth_error with (f := fun x => fadd x (bias_ (weights m)))
                  | now apply map_nth_error ]). }
  destruct Hfw as (data & Efw & Hlen & Hnth).
  eexists; split; [exact Efw|]. split; [|split; [exact Hlen|exact Hnth]].
  unfold predict. rewrite Hf.
  change ((2 =? 0)%Z) with false; change ((2 =? 1)%Z) with false;
    change ((2 =? 2)%Z) with true.
  cbn iota. now rewrite Efw.
Qed.

(** The part of [forward] that every mode runs, on a valid batch. *)
Ltac forward_base Hu Hi Hub Hib :=
  unfold forward, rowdot;
  rewrite (embedding_valid [] _ _ _ Hu), (embedding_valid [] _ _ _ Hi),
    (embedding_valid f0 _ _ _ Hub), (embedding_valid f0 _ _ _ Hib);
  cbn [rbind];
  do 4 step_forward.

Lemma rbind_ok {A B} (r : result A) (k : A -> result B) b :
  rbind r k = Ok b -> exists a, r = Ok a /\ k a = Ok b.
Proof. destruct r as [a|e]; simpl; [eauto | discriminate]. Qed.

Ltac invert_binds :=
  repeat match goal with
         | H : rbind ?r _ = Ok _ |- _ =>
             let a := fresh "v" in
             let E := fresh "E" in
             apply rbind_ok in H as (a & E & H)
         end.

(** [forward] keeps the batch length, the model's device and the
    autograd link to the parameters. *)
Lemma forward_shape env m user item gender age out :
  forward env m user item gender age = Ok out ->
  length (idata item) = length (idata user) ->
  length (fdata out) = length (idata user)
  /\ fdev out = model_device m
  /\ frequires_grad out = is_grad_enabled env.
Proof.
  unfold forward, rowdot; intros H L.
  apply rbind_ok in H as (eu & Eeu & H). apply rbind_ok in H as (ei & Eei & H).
  apply rbind_ok in H as (p0 & Ep0 & H). apply rbind_ok in H as (ub & Eub & H).
  apply rbind_ok in H as (ib & Eib & H). apply rbind_ok in H as (s & Es & H).
  apply rbind_ok in H as (b & Eb & H). apply rbind_ok in H as (p1 & Ep1 & H).
  apply rbind_ok in H as (p2 & Ep2 & H).
  inversion H; subst out; clear H; simpl. repeat split.
  apply embedding_length in Eeu, Eei.
  rewrite broadcast2_same_length in Ep0 by congruence.
  inversion Ep0; subst p0; clear Ep0.
  apply iadd_length in Ep1.
  assert (L1 : length p1 = length (idata user)).
  { rewrite Ep1, zip_with_length; congruence. }
  clear - Ep2 L1.
  destruct (feature m =? 0)%Z; [|destruct (feature m =? 1)%Z;
                                  [|destruct (feature m =? 2)%Z]];
    invert_binds;
    repeat match goal with
           | H : iadd _ _ = Ok _ |- _ => apply iadd_length in H
           end;
    congruence.
Qed.

(** C6. On a model built with a feature value other than 0, 1 and 2,
    [predict] of one in-range example returns the single base score; the
    side-feature tables do not exist, so none is looked up; and the gender
    and age arguments do not affect the result. *)
Theorem predict_without_side_features env m u i g a g' a' ui ii :
  feature m <> 0%Z -> feature m <> 1%Z -> feature m <> 2%Z ->
  constructed m = true ->
  idata u = [ui] -> idata i = [ii] ->
  valid_index (embed_user (weights m)) (model_device m) u = true ->
  valid_index (embed_item (weights m)) (model_device m) i = true ->
  predict env m u i g a
  = Ok {| fdata := [spec_base_score (weights m) ui ii]; fdev := CPU;
          frequires_grad := is_grad_enabled env |}
  /\ predict env m u i g' a' = predict env m u i g a
  /\ embed_gender (weights m) = None /\ g_bias (weights m) = None
  /\ embed_age (weights m) = None /\ a_bias (weights m) = None.
Proof.
  intros H0 H1 H2 Hc Eu Ei Hu Hi.
  destruct (constructed_bias_lengths m Hc) as [Lub Lib].
  pose proof (valid_index_same_length _ (u_bias (weights m)) _ _ Lub Hu) as Hub.
  pose proof (valid_index_same_length _ (i_bias (weights m)) _ _ Lib Hi) as Hib.
  assert (L : length (idata i) = length (idata u)) by now rewrite Eu, Ei.
  split; [|split; [|now apply constructed_no_side]].
  - unfold predict.
    rewrite (proj2 (Z.eqb_neq _ _) H0), (proj2 (Z.eqb_neq _ _) H1),
      (proj2 (Z.eqb_neq _ _) H2).
    forward_base Hu Hi Hub Hib.
    rewrite (proj2 (Z.eqb_neq _ _) H0), (proj2 (Z.eqb_neq _ _) H1),
      (proj2 (Z.eqb_neq _ _) H2).
    cbn [rbind]. rewrite Eu, Ei. reflexivity.
  - unfold predict.
    now rewrite (proj2 (Z.eqb_neq _ _) H0), (proj2 (Z.eqb_neq _ _) H1),
      (proj2 (Z.eqb_neq _ _) H2).
Qed.

(** C8, as the code has it.  When [predict] returns, its result is the
    scoring function's result for the side-features of the mode, copied
    to host memory; it has the batch length of the inputs; its autograd
    link is the one [forward] produced, so under the default gradient mode
    it still requires grad. *)
Theorem predict_returns_host_copy env m u i g a out :
  predict env m u i g a = Ok out ->
  length (idata i) = length (idata u) ->
  (exists pred,
      forward env m u i (mode_gender m g) (mode_age m a) = Ok pred
      /\ out = cpu pred)
  /\ fdev out = CPU
  /\ length (fdata out) = length (idata u)
  /\ frequires_grad out = is_grad_enabled env.
Proof.
  unfold predict, mode_gender, mode_age; intros H L.
  assert (Hp : exists pred,
             forward env m u i
               (if (feature m =? 0)%Z || (feature m =? 2)%Z then g else None)
               (if (feature m =? 1)%Z || (feature m =? 2)%Z then a else None)
             = Ok pred /\ out = cpu pred).
  { destruct (Z.eqb_spec (feature m) 0) as [E0|N0].
    - rewrite E0 in *; simpl.
      apply rbind_ok in H as (pred & E & H); inversion H; eauto.
    - destruct (Z.eqb_spec (feature m) 1) as [E1|N1].
      + rewrite E1 in *; simpl.
        apply rbind_ok in H as (pred & E & H); inversion H; eauto.
      + destruct (Z.eqb_spec (feature m) 2) as [E2|N2]; simpl;
          apply rbind_ok in H as (pred & E & H); inversion H; eauto. }
  destruct Hp as (pred & Efw & ->).
  destruct (forward_shape _ _ _ _ _ _ Efw L) as (Hl & _ & Hg).
  split; [eauto|]. simpl; auto.
Qed.

(** C10. In mode 0, 1 or 2, a call of [predict] or [forward] that leaves
    a side-feature argument the mode reads at its default [None], the
    other arguments being valid, raises the [TypeError] of the
    side-feature embedding lookup; [predict] with both defaults succeeds
    exactly when the mode is none of 0, 1, 2. *)
Theorem none_side_feature_fails env m u i g a :
  constructed m = true ->
  valid_index (embed_user (weights m)) (model_device m) u = true ->
  valid_index (embed_item (weights m)) (model_device m) i = true ->
  length (idata i) = length (idata u) ->
  valid_if_given (side_table (embed_gender (weights m))) (model_device m)
    (length (idata u)) g = true ->
  (omits_required m g a = true ->
     predict env m u i g a = Raise TypeError
     /\ forward env m u i g a = Raise TypeError)
  /\ is_ok (predict env m u i None None)
     = negb ((feature m =? 0)%Z || (feature m =? 1)%Z || (feature m =? 2)%Z).
Proof.
  intros Hc Hu Hi L Hg.
  destruct (constructed_bias_lengths m Hc) as [Lub Lib].
  pose proof (valid_index_same_length _ (u_bias (weights m)) _ _ Lub Hu) as Hub.
  pose proof (valid_index_same_length _ (i_bias (weights m)) _ _ Lib Hi) as Hib.
  unfold omits_required, predict.
  destruct (Z.eqb_spec (feature m) 0) as [E0|N0].
  { destruct (constructed_gender m Hc (or_introl E0)) as (tg & bg & Etg & Ebg & Lbg).
    assert (Hnone : forall a0, forward env m u i None a0 = Raise TypeError).
    { intros a0. forward_base Hu Hi Hub Hib. rewrite E0, Etg. reflexivity. }
    split.
    - destruct g; simpl; [discriminate|]. intros _. now rewrite !Hnone.
    - now rewrite Hnone. }
  destruct (Z.eqb_spec (feature m) 1) as [E1|N1].
  { destruct (constructed_age m Hc (or_introl E1)) as (ta & ba & Eta & Eba & Lba).
    assert (Hnone : forall g0, forward env m u i g0 None = Raise TypeError).
    { intros g0. forward_base Hu Hi Hub Hib. rewrite E1, Eta. reflexivity. }
    split.
    - destruct a; simpl; [discriminate|]. intros _. now rewrite !Hnone.
    - now rewrite Hnone. }
  destruct (Z.eqb_spec (feature m) 2) as [E2|N2].
  { destruct (constructed_gender m Hc (or_intror E2)) as (tg & bg & Etg & Ebg & Lbg).
    destruct (constructed_age m Hc (or_intror E2)) as (ta & ba & Eta & Eba & Lba).
    assert (Hnone : forall a0, forward env m u i None a0 = Raise TypeError).
    { intros a0. forward_base Hu Hi Hub Hib. rewrite E2, Etg. reflexivity. }
    split; [|now rewrite Hnone].
    destruct g as [gt|]; simpl.
    - destruct a; simpl; [discriminate|]. intros _.
      rewrite Etg in Hg; simpl in Hg. apply andb_prop in Hg as [Hg _].
      assert (Hfw : forward env m u i (Some gt) None = Raise TypeError).
      { forward_base Hu Hi Hub Hib. rewrite E2, Etg, Eta.
        change ((2 =? 0)%Z) with false; change ((2 =? 1)%Z) with false;
          change ((2 =? 2)%Z) with true.
        cbn [attr rbind].
        rewrite (embedding_valid [] _ _ _ Hg). reflexivity. }
      now rewrite Hfw.
    - intros _. now rewrite !Hnone. }
  split; [discriminate|].
  forward_base Hu Hi Hub Hib.
  rewrite (proj2 (Z.eqb_neq _ _) N0), (proj2 (Z.eqb_neq _ _) N1),
    (proj2 (Z.eqb_neq _ _) N2).
  reflexivity.
Qed.

End Scoring.

(** ** The trainer *)

Section Training.
Context {T : Type} {TO : FloatOps T} {P : Type} {PO : FloatOps P}.
Variable bce_with_logits_sum : list T -> list T -> result T.
Variable sgd_step : P -> (params T -> result T) -> params T -> params T.
Variable tensor_item : T -> P.
Variable py_1e_5 : P.

Local Notation "'train_batch_'" := (train_batch bce_with_logits_sum sgd_step tensor_item).
Local Notation "'batch_loop_'" := (batch_loop bce_with_logits_sum sgd_step tensor_item).
Local Notation "'run_epoch_'" := (run_epoch bce_with_logits_sum sgd_step tensor_item).
Local Notation "'epoch_loop_'" :=
  (epoch_loop bce_with_logits_sum sgd_step tensor_item py_1e_5).
Local Notation "'fit_'" := (fit bce_with_logits_sum sgd_step tensor_item py_1e_5).
Local Notation "'run_fit_'" := (run_fit bce_with_logits_sum sgd_step tensor_item py_1e_5).

Implicit Types (s : fit_state T P) (m : PointFM T P) (c : criterion).

(** What a batch leaves alone: the early-stop switch of the model and the
    epochs started so far. *)
Local Notation "'same_run' s s'" :=
  (early_stop (model s') = early_stop (model s)
   /\ filter is_epoch (log s') = filter is_epoch (log s))
  (at level 10, s at level 9, s' at level 9).

Lemma same_run_refl s : same_run s s.
Proof. split; reflexivity. Qed.

Lemma same_run_trans s1 s2 s3 : same_run s1 s2 -> same_run s2 s3 -> same_run s1 s3.
Proof. intros [A B] [C D]; split; congruence. Qed.

Ltac filter_log := repeat rewrite filter_app; simpl; rewrite ?app_nil_r.

Lemma train_batch_same_run env c b cur s :
  same_run s (snd (train_batch_ env c b cur s)).
Proof.
  unfold train_batch, bind, emit, get_model, lift, put_model, raise, ret; simpl.
  destruct (batch_to_cuda env (model s) b) as [[[[[user item] label] gender] age]|e];
    simpl; [|split; simpl; [reflexivity | now filter_log]].
  destruct (batch_loss _ _ _ _ _ _ _ _ _) as [loss|e];
    simpl; [|split; simpl; [reflexivity | now filter_log]].
  destruct (fisnan loss); simpl; split; simpl; try reflexivity; now filter_log.
Qed.

Lemma batch_loop_same_run env c bs cur s :
  same_run s (snd (batch_loop_ env c bs cur s)).
Proof.
  revert cur s; induction bs as [|b bs IH]; intros cur s; simpl.
  - apply same_run_refl.
  - unfold bind.
    pose proof (train_batch_same_run env c b cur s) as Hb.
    destruct (train_batch_ env c b cur s) as [[cur'|e] s1]; simpl in *.
    + eapply same_run_trans; [exact Hb | apply IH].
    + exact Hb.
Qed.

(** An epoch starts once and keeps the early-stop switch. *)
Lemma run_epoch_log env c ld epoch s :
  let s' := snd (run_epoch_ env c ld epoch s) in
  early_stop (model s') = early_stop (model s)
  /\ count_events is_epoch (log s') = S (count_events is_epoch (log s)).
Proof.
  unfold run_epoch, bind, get_model, put_model, emit; simpl.
  match goal with
  | |- context [batch_loop_ env c ?bs ?z ?s0] =>
      destruct (batch_loop_same_run env c bs z s0) as [He Hl]
  end.
  simpl in *. split; [exact He|].
  unfold count_events. rewrite Hl. filter_log.
  rewrite length_app; simpl; lia.
Qed.

Lemma epoch_loop_count env c ld es last s :
  count_events is_epoch (log (snd (epoch_loop_ env c ld es last s)))
  <= count_events is_epoch (log s) + length es.
Proof.
  revert last s; induction es as [|epoch es IH]; intros last s; simpl.
  - lia.
  - unfold bind at 1.
    destruct (run_epoch_log env c ld epoch s) as [_ Hcount].
    destruct (run_epoch_ env c ld epoch s) as [[cur|e] s1]; simpl in *; [|lia].
    unfold bind, get_model, put_model; simpl.
    destruct (fltb _ _ && _).
    + unfold emit, count_events in *; simpl. filter_log. lia.
    + match goal with
      | |- context [epoch_loop_ env c ld es cur ?s2] =>
          specialize (IH cur s2)
      end.
      simpl in IH. lia.
Qed.

(** The NaN guard of a batch: a NaN loss raises before the gradient step,
    any other loss value (finite or not) goes on to [backward] and
    [step]. *)
Lemma train_batch_guard env c b cur s user item label gender age loss :
  batch_to_cuda env (model s) b = Ok (user, item, label, gender, age) ->
  batch_loss bce_with_logits_sum env c (model s) user item gender age label = Ok loss ->
  train_batch_ env c b cur s
  = if fisnan loss
    then (Raise (ValueError nan_message),
          {| model := model s; log := log s ++ [EvBatch; EvZeroGrad] |})
    else (Ok (fadd cur (tensor_item loss)),
          {| model :=
               set_weights (model s)
                 (sgd_step (lr (model s))
                    (fun w => batch_loss bce_with_logits_sum env c
                                (set_weights (model s) w) user item gender age label)
                    (weights (model s)));
             log := log s ++ [EvBatch; EvZeroGrad; EvBackward; EvStep] |}).
Proof.
  intros Hmv Hloss.
  unfold train_batch, bind, emit, get_model, lift, put_model, raise, ret; simpl.
  rewrite Hmv; simpl. rewrite Hloss; simpl.
  destruct (fisnan loss); simpl; repeat rewrite <- app_assoc; reflexivity.
Qed.

(** [fit] up to the epoch loop: the model is placed, the optimizer is
    built, then the criterion is chosen. *)
Lemma run_fit_unfold env m ld :
  run_fit_ env m ld
  = if fltb (lr m) f0
    then (Raise InvalidLearningRate,
          {| model := set_device m (fit_device env);
             log := [EvModelTo (fit_device env)] |})
    else match criterion_of (loss_type m) with
         | Ok c =>
             epoch_loop_ env c ld (seq 1 (Z.to_nat (epochs m))) f0
               {| model := set_device m (fit_device env);
                  log := [EvModelTo (fit_device env)] |}
         | Raise e =>
             (Raise e, {| model := set_device m (fit_device env);
                          log := [EvModelTo (fit_device env)] |})
         end.
Proof.
  unfold run_fit, fit, bind, get_model, put_model, emit, lift, sgd_init; simpl.
  destruct (fltb (lr m) f0); simpl; [reflexivity|].
  destruct (criterion_of (loss_type m)); reflexivity.
Qed.

Lemma run_fit_started env m ld c :
  fltb (lr m) f0 = false ->
  criterion_of (loss_type m) = Ok c ->
  run_fit_ env m ld
  = epoch_loop_ env c ld (seq 1 (Z.to_nat (epochs m))) f0
      {| model := set_device m (fit_device env);
         log := [EvModelTo (fit_device env)] |}.
Proof. intros Hlr Hc. now rewrite run_fit_unfold, Hlr, Hc. Qed.

(** Without a usable GPU the move of a batch fails at its first
    [.cuda()], in every mode; so [fit] raises at the first batch of the
    first epoch. *)
Lemma batch_to_cuda_without_gpu env m (b : batch T) :
  cuda_is_available env = false -> batch_to_cuda env m b = Raise CudaError.
Proof. intros H; unfold batch_to_cuda, icuda; now rewrite H. Qed.

Lemma fit_without_gpu env m ld c b bs :
  cuda_is_available env = false ->
  fltb (lr m) f0 = false ->
  criterion_of (loss_type m) = Ok c ->
  (1 <= epochs m)%Z ->
  ld 0 = b :: bs ->
  run_fit_ env m ld
  = (Raise CudaError,
     {| model := set_training (set_device m CPU) true;
        log := [EvModelTo CPU; EvEpoch 1; EvBatch] |}).
Proof.
  intros Hgpu Hlr Hc Hn Hld.
  rewrite (run_fit_started env m ld Hlr Hc). unfold fit_device; rewrite Hgpu.
  replace (Z.to_nat (epochs m)) with (S (Z.to_nat (epochs m) - 1)) by lia.
  cbn [seq epoch_loop].
  unfold run_epoch, bind, get_model, put_model, emit; simpl.
  rewrite Hld; simpl.
  unfold train_batch, bind, emit, get_model, lift; simpl.
  now rewrite batch_to_cuda_without_gpu.
Qed.

(** C2. With a loss type other than 'CL' and 'SL', [fit] raises a
    configuration error (a [ValueError]) right after placing the model on
    its device, before the epoch loop: the error of the loss type, or, when
    the learning rate is negative, the error that the optimizer raises one
    line earlier.  The loader is not iterated and no batch is drawn,
    whatever the loader. *)
Theorem fit_invalid_loss_type env m ld :
  loss_type m <> "CL"%string ->
  loss_type m <> "SL"%string ->
  run_fit_ env m ld
  = (Raise (if fltb (lr m) f0 then InvalidLearningRate
            else ValueError (invalid_loss_message (loss_type m))),
     {| model := set_device m (fit_device env);
        log := [EvModelTo (fit_device env)] |})
  /\ (exists e, fst (run_fit_ env m ld) = Raise e /\ is_value_error e = true)
  /\ count_events is_epoch (log (snd (run_fit_ env m ld))) = 0
  /\ count_events is_batch (log (snd (run_fit_ env m ld))) = 0.
Proof.
  intros Hcl Hsl.
  assert (E : run_fit_ env m ld
              = (Raise (if fltb (lr m) f0 then InvalidLearningRate
                        else ValueError (invalid_loss_message (loss_type m))),
                 {| model := set_device m (fit_device env);
                    log := [EvModelTo (fit_device env)] |})).
  { rewrite run_fit_unfold. unfold criterion_of.
    rewrite (proj2 (String.eqb_neq _ _) Hcl), (proj2 (String.eqb_neq _ _) Hsl).
    destruct (fltb (lr m) f0); reflexivity. }
  rewrite E; repeat split.
  eexists; split; [reflexivity|]. destruct (fltb (lr m) f0); reflexivity.
Qed.

(** C4. One turn of the epoch loop: when the batches of an epoch are done
    with total [cur], the loop ends there if [|cur - last| < 1e-5] and
    early stopping is on, without starting another epoch; otherwise it
    goes on with the remaining epochs and [cur] as the previous total.
    In all, [fit] starts at most [epochs] epochs. *)
Theorem epoch_loop_early_stop env c ld epoch es last s cur s1 :
  run_epoch_ env c ld epoch s = (Ok cur, s1) ->
  epoch_loop_ env c ld (epoch :: es) last s
  = (if fltb (fabs (fsub cur last)) py_1e_5 && early_stop (model s1)
     then (Ok tt, {| model := set_training (model s1) false;
                     log := log s1 ++ [EvPrint stop_message] |})
     else epoch_loop_ env c ld es cur
            {| model := set_training (model s1) false; log := log s1 |})
  /\ forall m ld',
       count_events is_epoch (log (snd (run_fit_ env m ld')))
       <= Z.to_nat (epochs m).
Proof.
  intros Hep; split.
  - simpl. unfold bind at 1. rewrite Hep.
    unfold bind, get_model, put_model, emit; simpl.
    destruct (fltb _ _ && _); reflexivity.
  - intros m ld'.
    rewrite run_fit_unfold.
    destruct (fltb (lr m) f0); [unfold count_events; simpl; lia|].
    destruct (criterion_of (loss_type m)) as [c'|e]; simpl.
    + match goal with
      | |- context [epoch_loop_ env c' ld' ?es0 ?l0 ?s0] =>
          pose proof (epoch_loop_count env c' ld' es0 l0 s0) as Hc
      end.
      rewrite length_seq in Hc. exact Hc.
    + unfold count_events; simpl; lia.
Qed.

(** C9. The previous total starts at 0: with early stopping on, a
    learning rate that the optimizer accepts (not negative), a valid loss
    type and at least one epoch configured, if the first epoch ends with a
    total [cur] such that [|cur| < 1e-5] (and [cur - 0. = cur], as for
    every float), [fit] returns after exactly one epoch. *)
Theorem fit_first_epoch_against_zero env m ld c cur s1 :
  early_stop m = true ->
  (1 <= epochs m)%Z ->
  fltb (lr m) f0 = false ->
  criterion_of (loss_type m) = Ok c ->
  run_epoch_ env c ld 1
    {| model := set_device m (fit_device env);
       log := [EvModelTo (fit_device env)] |} = (Ok cur, s1) ->
  fsub cur f0 = cur ->
  fltb (fabs cur) py_1e_5 = true ->
  run_fit_ env m ld
  = (Ok tt, {| model := set_training (model s1) false;
               log := log s1 ++ [EvPrint stop_message] |})
  /\ count_events is_epoch (log (snd (run_fit_ env m ld))) = 1.
Proof.
  intros Hes Hn Hlr Hc Hep Hsub Hlt.
  pose proof (run_epoch_log env c ld 1
                {| model := set_device m (fit_device env);
                   log := [EvModelTo (fit_device env)] |}) as Hlog.
  rewrite Hep in Hlog; simpl in Hlog. destruct Hlog as [Hkeep Hcount].
  assert (E : run_fit_ env m ld
              = (Ok tt, {| model := set_training (model s1) false;
                           log := log s1 ++ [EvPrint stop_message] |})).
  { rewrite (run_fit_started env m ld Hlr Hc).
    replace (Z.to_nat (epochs m)) with (S (Z.to_nat (epochs m) - 1)) by lia.
    cbn [seq epoch_loop]. unfold bind at 1. rewrite Hep.
    unfold bind, get_model, put_model, emit; simpl.
    rewrite Hsub, Hlt, Hkeep, Hes. reflexivity. }
  rewrite E; split; [reflexivity|]. simpl.
  unfold count_events in *. rewrite filter_app, length_app; simpl.
  unfold count_events in Hcount. simpl in Hcount. lia.
Qed.

End Training.

(** ** The loss over the real numbers *)

Section RealLoss.
Context {P : Type}.
Variable bce_with_logits_sum : list R -> list R -> result R.
Implicit Types (m : PointFM R P).




#[local] Opaque norm_1 norm_2.


(** In real arithmetic the grouping of the sums does not matter: the
    score of mode 2 is the plain sum of its eleven terms. *)
Lemma spec_score_gender_age_real_sum (w : params R) u i g a :
  let eu := row_of [] (embed_user w) u in
  let ei := row_of [] (embed_item w) i in
  let eg := row_of [] (side_table (embed_gender w)) g in
  let ea := row_of [] (side_table (embed_age w)) a in
  spec_score_gender_age w u i g a
  = (dot eu ei + row_of 0 (u_bias w) u + row_of 0 (i_bias w) i + bias_ w
     + dot eg eu + dot eg ei + dot ea eu + dot ea ei + dot ea eg
     + row_of 0 (side_table (g_bias w)) g
     + row_of 0 (side_table (a_bias w)) a)%R.
Proof.
  intros eu ei eg ea.
  unfold spec_score_gender_age, spec_base_score.
  fold eu ei eg ea. cbn [fadd f0 R_FloatOps]. ring.
Qed.








End RealLoss.

(** ** Runs on concrete models *)

Module Runs.
Import Demo.

(** C3, where the code departs from it.  A regression target of 2**100
    makes the squared error overflow: the per-batch loss is +infinity,
    which [torch.isnan] does not flag, so [fit] goes through
    [loss.backward()] and [optimizer.step()] and returns normally,
    whatever the classification loss and the gradient step are. *)
Theorem fit_infinite_loss_not_caught
    (bce : list binary32 -> list binary32 -> result binary32)
    (sgd : binary64 -> (params binary32 -> result binary32) ->
           params binary32 -> params binary32) :
  batch_loss bce gpu_env MSELoss (set_device (model_of 3 "SL" 1 true) CUDA)
    (indices CUDA [0]%Z) (indices CUDA [0]%Z) None None
    (labels CUDA [f32_pow2 100])
  = Ok (B32 (S754_infinity false))
  /\ fisnan (B32 (S754_infinity false)) = false
  /\ fst (run_fit bce sgd f32_item f64_1e_5 gpu_env (model_of 3 "SL" 1 true)
            (loader_of [huge_label])) = Ok tt
  /\ log (snd (run_fit bce sgd f32_item f64_1e_5 gpu_env (model_of 3 "SL" 1 true)
                 (loader_of [huge_label])))
     = [EvModelTo CUDA; EvEpoch 1; EvBatch; EvZeroGrad; EvBackward; EvStep].
Proof. repeat split; vm_compute; reflexivity. Qed.

(** C5, where the code departs from it.  On a machine without a GPU,
    [fit] puts the model on the CPU and then raises at the [.cuda()] of
    the first batch: nothing is trained. *)
Theorem fit_without_gpu_raises
    (bce : list binary32 -> list binary32 -> result binary32)
    (sgd : binary64 -> (params binary32 -> result binary32) ->
           params binary32 -> params binary32) :
  run_fit bce sgd f32_item f64_1e_5 cpu_env (model_of 2 "SL" 3 true)
    (loader_of [two_examples])
  = (Raise CudaError,
     {| model := set_training (set_device (model_of 2 "SL" 3 true) CPU) true;
        log := [EvModelTo CPU; EvEpoch 1; EvBatch] |}).
Proof.
  apply (fit_without_gpu bce sgd f32_item f64_1e_5 cpu_env
           (model_of 2 "SL" 3 true) (loader_of [two_examples])
           (c := MSELoss) (b := two_examples) (bs := [])).
  - reflexivity.
  - reflexivity.
  - reflexivity.
  - simpl; lia.
  - reflexivity.
Qed.

(** C8, as stated, fails: under the default gradient mode the tensor that
    [predict] returns is on the host but still requires grad. *)
Lemma predict_result_requires_grad :
  exists out,
    predict gpu_env (model_of 3 "SL" 1 true) (indices CPU [0]%Z)
      (indices CPU [1]%Z) None None = Ok out
    /\ fdev out = CPU
    /\ frequires_grad out = true.
Proof. eexists; repeat split; vm_compute; reflexivity. Qed.

(** *** The theorems at concrete inputs *)

Lemma forward_gender_age_scores_witness :
  exists out,
    forward gpu_env (model_of 2 "SL" 3 true) users items (Some genders) (Some ages)
    = Ok out
    /\ predict gpu_env (model_of 2 "SL" 3 true) users items (Some genders) (Some ages)
       = Ok (cpu out)
    /\ length (fdata out) = length (idata users)
    /\ forall k u i g a,
         nth_error (idata users) k = Some u ->
         nth_error (idata items) k = Some i ->
         nth_error (idata genders) k = Some g ->
         nth_error (idata ages) k = Some a ->
         nth_error (fdata out) k
         = Some (spec_score_gender_age (weights (model_of 2 "SL" 3 true)) u i g a).
Proof.
  apply (forward_gender_age_scores gpu_env (model_of 2 "SL" 3 true)
           users items genders ages); vm_compute; reflexivity.
Defined.

Lemma fit_invalid_loss_type_witness :
  let m := model_of 2 "XYZ" 3 true in
  let ld := loader_of [two_examples] in
  run_fit bce_unused sgd_rate_0 f32_item f64_1e_5 gpu_env m ld
  = (Raise (if fltb (lr m) f0 then InvalidLearningRate
            else ValueError (invalid_loss_message (loss_type m))),
     {| model := set_device m (fit_device gpu_env);
        log := [EvModelTo (fit_device gpu_env)] |})
  /\ (exists e,
         fst (run_fit bce_unused sgd_rate_0 f32_item f64_1e_5 gpu_env m ld)
         = Raise e /\ is_value_error e = true)
  /\ count_events is_epoch
       (log (snd (run_fit bce_unused sgd_rate_0 f32_item f64_1e_5 gpu_env m ld)))
     = 0
  /\ count_events is_batch
       (log (snd (run_fit bce_unused sgd_rate_0 f32_item f64_1e_5 gpu_env m ld)))
     = 0.
Proof.
  intros m ld.
  apply (fit_invalid_loss_type bce_unused sgd_rate_0 f32_item f64_1e_5 gpu_env
           m ld);
    simpl; discriminate.
Defined.

Lemma epoch_loop_early_stop_witness :
  let m := model_of 2 "SL" 3 true in
  let cur := total_of (fst (first_epoch m [two_examples])) in
  let s1 := snd (first_epoch m [two_examples]) in
  epoch_loop bce_unused sgd_rate_0 f32_item f64_1e_5 gpu_env MSELoss
    (loader_of [two_examples]) [1; 2; 3] f0 (at_loop_entry gpu_env m)
  = (if fltb (fabs (fsub cur f0)) f64_1e_5 && early_stop (model s1)
     then (Ok tt, {| model := set_training (model s1) false;
                     log := log s1 ++ [EvPrint stop_message] |})
     else epoch_loop bce_unused sgd_rate_0 f32_item f64_1e_5 gpu_env MSELoss
            (loader_of [two_examples]) [2; 3] cur
            {| model := set_training (model s1) false; log := log s1 |})
  /\ forall m' ld',
       count_events is_epoch
         (log (snd (run_fit bce_unused sgd_rate_0 f32_item f64_1e_5 gpu_env m' ld')))
       <= Z.to_nat (epochs m').
Proof.
  intros m cur s1.
  apply (epoch_loop_early_stop bce_unused sgd_rate_0 f32_item f64_1e_5 gpu_env
           MSELoss (loader_of [two_examples]) 1 [2; 3] f0
           (at_loop_entry gpu_env m) (cur := cur) (s1 := s1)).
  vm_compute; reflexivity.
Defined.

Lemma fit_first_epoch_against_zero_witness :
  let m := Cases.unpenalized_model in
  let s1 := snd (first_epoch m [Cases.exact_target]) in
  run_fit bce_unused sgd_rate_0 f32_item f64_1e_5 gpu_env m
    (loader_of [Cases.exact_target])
  = (Ok tt, {| model := set_training (model s1) false;
               log := log s1 ++ [EvPrint stop_message] |})
  /\ count_events is_epoch
       (log (snd (run_fit bce_unused sgd_rate_0 f32_item f64_1e_5 gpu_env m
                    (loader_of [Cases.exact_target])))) = 1.
Proof.
  intros m s1.
  apply (fit_first_epoch_against_zero bce_unused sgd_rate_0 f32_item f64_1e_5
           gpu_env m (loader_of [Cases.exact_target]) (c := MSELoss)
           (cur := f0));
    try (vm_compute; reflexivity).
  vm_compute; discriminate.
Defined.

Lemma predict_without_side_features_witness :
  let m := model_of 3 "SL" 1 true in
  predict gpu_env m (indices CPU [0]%Z) (indices CPU [1]%Z) (Some genders) None
  = Ok {| fdata := [spec_base_score (weights m) 0 1]; fdev := CPU;
          frequires_grad := true |}
  /\ predict gpu_env m (indices CPU [0]%Z) (indices CPU [1]%Z) None (Some ages)
     = predict gpu_env m (indices CPU [0]%Z) (indices CPU [1]%Z) (Some genders) None
  /\ embed_gender (weights m) = None /\ g_bias (weights m) = None
  /\ embed_age (weights m) = None /\ a_bias (weights m) = None.
Proof.
  intros m.
  apply (predict_without_side_features gpu_env m (indices CPU [0]%Z)
           (indices CPU [1]%Z) (Some genders) None None (Some ages)
           (ui := 0%Z) (ii := 1%Z));
    try (vm_compute; reflexivity); vm_compute; discriminate.
Defined.

Lemma predict_returns_host_copy_witness :
  let m := model_of 2 "SL" 3 true in
  let out := scores_of (predict gpu_env m users items (Some genders) (Some ages)) in
  (exists pred,
      forward gpu_env m users items (mode_gender m (Some genders))
        (mode_age m (Some ages)) = Ok pred
      /\ out = cpu pred)
  /\ fdev out = CPU
  /\ length (fdata out) = length (idata users)
  /\ frequires_grad out = is_grad_enabled gpu_env.
Proof.
  intros m out.
  apply (predict_returns_host_copy gpu_env m users items (Some genders) (Some ages));
    vm_compute; reflexivity.
Defined.

Lemma none_side_feature_fails_witness :
  let m := model_of 2 "SL" 3 true in
  omits_required m (Some genders) None = true
  /\ predict gpu_env m users items (Some genders) None = Raise TypeError
  /\ forward gpu_env m users items (Some genders) None = Raise TypeError.
Proof.
  intros m. split; [reflexivity|].
  apply (none_side_feature_fails gpu_env m users items (Some genders) None);
    vm_compute; reflexivity.
Defined.



End Runs.

(** ** More on broadcasting, lookups and slices *)

Section SliceFacts.
Context {A B C : Type}.

Lemma broadcast2_scalar_l (f : A -> B -> C) x ys :
  broadcast2 f [x] ys = Ok (map (f x) ys).
Proof.
  unfold broadcast2. destruct ys as [|y [|y' ys]]; reflexivity.
Qed.

Lemma broadcast2_mismatch (f : A -> B -> C) xs ys :
  length xs <> length ys -> length xs <> 1 -> length ys <> 1 ->
  broadcast2 f xs ys = Raise ShapeError.
Proof.
  intros Hne Hx Hy. unfold broadcast2.
  rewrite (proj2 (Nat.eqb_neq _ _) Hne).
  destruct xs as [|x [|x' xs]], ys as [|y [|y' ys]]; simpl in *;
    congruence.
Qed.

Lemma lookup_rows_out_of_range (w : list A) idx :
  forallb (in_range w) idx = false ->
  lookup_rows w idx = Raise IndexError.
Proof.
  induction idx as [|i idx IH]; simpl; [discriminate|].
  intros H. unfold lookup_row at 1. unfold in_range in H at 1.
  destruct (Z.ltb_spec i 0) as [Hneg|Hpos]; [reflexivity|].
  destruct (nth_error w (Z.to_nat i)) as [r|] eqn:E; [|reflexivity].
  simpl. rewrite IH; [reflexivity|].
  assert (Hi : ((0 <=? i)%Z && (i <? Z.of_nat (length w))%Z) = true).
  { apply andb_true_intro; split; [now apply Z.leb_le|].
    apply Z.ltb_lt. assert (Z.to_nat i < length w) by (apply nth_error_Some; congruence).
    lia. }
  rewrite Hi in H. exact H.
Qed.

Lemma nth_slice (l : list A) k d :
  nth 0 (firstn 1 (skipn k l)) d = nth k l d.
Proof.
  revert l; induction k as [|k IH]; intros [|x l].
  - reflexivity.
  - reflexivity.
  - reflexivity.
  - apply (IH l).
Qed.

Lemma nth_error_slice (l : list A) k :
  nth_error (firstn 1 (skipn k l)) 0 = nth_error l k.
Proof.
  revert l; induction k as [|k IH]; intros [|x l].
  - reflexivity.
  - reflexivity.
  - reflexivity.
  - apply (IH l).
Qed.

Lemma length_slice (l : list A) k :
  k < length l -> length (firstn 1 (skipn k l)) = 1.
Proof.
  intros H. rewrite length_firstn, length_skipn. lia.
Qed.

Lemma forallb_slice (p : A -> bool) l k :
  forallb p l = true -> forallb p (firstn 1 (skipn k l)) = true.
Proof.
  revert l; induction k as [|k IH]; intros [|x l] H.
  - reflexivity.
  - simpl in *. apply andb_prop in H as [Hx _]. now rewrite Hx.
  - reflexivity.
  - simpl in H. apply andb_prop in H as [_ Hl]. apply (IH l Hl).
Qed.

End SliceFacts.

(** ** The scoring function in every mode *)

Section ScoringByMode.
Context {T : Type} {TO : FloatOps T} {P : Type}.
Implicit Types (m : PointFM T P) (env : torch_env).

Ltac len :=
  repeat (rewrite ?length_map; try rewrite zip_with_length by len);
  congruence.

Ltac step :=
  first
    [ rewrite broadcast2_scalar_r
    | rewrite broadcast2_same_length by len
    | rewrite iadd_same_length by len ];
  cbn [rbind].

Ltac base_part Hu Hi Hub Hib :=
  unfold forward, rowdot;
  rewrite (embedding_valid [] _ _ _ Hu), (embedding_valid [] _ _ _ Hi),
    (embedding_valid f0 _ _ _ Hub), (embedding_valid f0 _ _ _ Hib);
  cbn [rbind];
  do 4 step.

Ltac nth_of_columns b :=
  repeat (first [ apply nth_error_zip_with
                | apply map_nth_error with (f := fun x => fadd x b)
                | now apply map_nth_error ]).

Lemma forward_scores_mode_0 env m user item gender :
  feature m = 0%Z ->
  constructed m = true ->
  valid_index (embed_user (weights m)) (model_device m) user = true ->
  valid_index (embed_item (weights m)) (model_device m) item = true ->
  valid_index (side_table (embed_gender (weights m))) (model_device m) gender = true ->
  length (idata item) = length (idata user) ->
  length (idata gender) = length (idata user) ->
  exists data,
    (forall age,
        forward env m user item (Some gender) age
        = Ok {| fdata := data; fdev := model_device m;
                frequires_grad := is_grad_enabled env |})
    /\ length data = length (idata user)
    /\ forall k u i g,
         nth_error (idata user) k = Some u ->
         nth_error (idata item) k = Some i ->
         nth_error (idata gender) k = Some g ->
         nth_error data k = Some (score_gender (weights m) u i g).
Proof.
  intros Hf Hc Hu Hi Hg Li Lg.
  destruct (constructed_bias_lengths m Hc) as [Lub Lib].
  destruct (constructed_gender m Hc (or_introl Hf)) as (tg & bg & Etg & Ebg & Lbg).
  rewrite Etg in Hg; simpl side_table in Hg.
  pose proof (valid_index_same_length _ (u_bias (weights m)) _ _ Lub Hu) as Hub.
  pose proof (valid_index_same_length _ (i_bias (weights m)) _ _ Lib Hi) as Hib.
  pose proof (valid_index_same_length _ bg _ _ Lbg Hg) as Hgb.
  eexists; split; [|split].
  - intros age. base_part Hu Hi Hub Hib.
    rewrite Hf, Etg, Ebg. change ((0 =? 0)%Z) with true. cbn [attr rbind].
    rewrite (embedding_valid [] _ _ _ Hg), (embedding_valid f0 _ _ _ Hgb).
    cbn [rbind]. repeat step. reflexivity.
  - len.
  - intros k u i g Ku Ki Kg.
    unfold score_gender, spec_base_score. rewrite Etg, Ebg; simpl side_table.
    nth_of_columns (bias_ (weights m)).
Qed.

Lemma forward_scores_mode_1 env m user item age :
  feature m = 1%Z ->
  constructed m = true ->
  valid_index (embed_user (weights m)) (model_device m) user = true ->
  valid_index (embed_item (weights m)) (model_device m) item = true ->
  valid_index (side_table (embed_age (weights m))) (model_device m) age = true ->
  length (idata item) = length (idata user) ->
  length (idata age) = length (idata user) ->
  exists data,
    (forall gender,
        forward env m user item gender (Some age)
        = Ok {| fdata := data; fdev := model_device m;
                frequires_grad := is_grad_enabled env |})
    /\ length data = length (idata user)
    /\ forall k u i a,
         nth_error (idata user) k = Some u ->
         nth_error (idata item) k = Some i ->
         nth_error (idata age) k = Some a ->
         nth_error data k = Some (score_age (weights m) u i a).
Proof.
  intros Hf Hc Hu Hi Ha Li La.
  destruct (constructed_bias_lengths m Hc) as [Lub Lib].
  destruct (constructed_age m Hc (or_introl Hf)) as (ta & ba & Eta & Eba & Lba).
  rewrite Eta in Ha; simpl side_table in Ha.
  pose proof (valid_index_same_length _ (u_bias (weights m)) _ _ Lub Hu) as Hub.
  pose proof (valid_index_same_length _ (i_bias (weights m)) _ _ Lib Hi) as Hib.
  pose proof (valid_index_same_length _ ba _ _ Lba Ha) as Hab.
  eexists; split; [|split].
  - intros gender. base_part Hu Hi Hub Hib.
    rewrite Hf, Eta, Eba.
    change ((1 =? 0)%Z) with false; change ((1 =? 1)%Z) with true.
    cbn [attr rbind].
    rewrite (embedding_valid [] _ _ _ Ha), (embedding_valid f0 _ _ _ Hab).
    cbn [rbind]. repeat step. reflexivity.
  - len.
  - intros k u i a Ku Ki Ka.
    unfold score_age, spec_base_score. rewrite Eta, Eba; simpl side_table.
    nth_of_columns (bias_ (weights m)).
Qed.

Lemma forward_scores_mode_2 env m user item gender age :
  feature m = 2%Z ->
  constructed m = true ->
  valid_index (embed_user (weights m)) (model_device m) user = true ->
  valid_index (embed_item (weights m)) (model_device m) item = true ->
  valid_index (side_table (embed_gender (weights m))) (model_device m) gender = true ->
  valid_index (side_table (embed_age (weights m))) (model_device m) age = true ->
  length (idata item) = length (idata user) ->
  length (idata gender) = length (idata user) ->
  length (idata age) = length (idata user) ->
  exists data,
    forward env m user item (Some gender) (Some age)
    = Ok {| fdata := data; fdev := model_device m;
            frequires_grad := is_grad_enabled env |}
    /\ length data = length (idata user)
    /\ forall k u i g a,
         nth_error (idata user) k = Some u ->
         nth_error (idata item) k = Some i ->
         nth_error (idata gender) k = Some g ->
         nth_error (idata age) k = Some a ->
         nth_error data k = Some (spec_score_gender_age (weights m) u i g a).
Proof.
  intros Hf Hc Hu Hi Hg Ha Li Lg La.
  destruct (constructed_bias_lengths m Hc) as [Lub Lib].
  destruct (constructed_gender m Hc (or_intror Hf)) as (tg & bg & Etg & Ebg & Lbg).
  destruct (constructed_age m Hc (or_intror Hf)) as (ta & ba & Eta & Eba & Lba).
  rewrite Etg in Hg; rewrite Eta in Ha; simpl side_table in Hg, Ha.
  pose proof (valid_index_same_length _ (u_bias (weights m)) _ _ Lub Hu) as Hub.
  pose proof (valid_index_same_length _ (i_bias (weights m)) _ _ Lib Hi) as Hib.
  pose proof (valid_index_same_length _ bg _ _ Lbg Hg) as Hgb.
  pose proof (valid_index_same_length _ ba _ _ Lba Ha) as Hab.
  base_part Hu Hi Hub Hib.
  rewrite Hf, Etg, Ebg, Eta, Eba.
  change ((2 =? 0)%Z) with false; change ((2 =? 1)%Z) with false;
    change ((2 =? 2)%Z) with true.
  cbn [attr rbind].
  rewrite (embedding_valid [] _ _ _ Hg), (embedding_valid [] _ _ _ Ha),
    (embedding_valid f0 _ _ _ Hgb), (embedding_valid f0 _ _ _ Hab).
  cbn [rbind]. repeat step.
  eexists; split; [reflexivity|]. split; [len|].
  intros k u i g a Ku Ki Kg Ka.
  unfold spec_score_gender_age, spec_base_score.
  rewrite Etg, Ebg, Eta, Eba; simpl side_table.
  nth_of_columns (bias_ (weights m)).
Qed.

Lemma forward_scores_no_side env m user item :
  feature m <> 0%Z -> feature m <> 1%Z -> feature m <> 2%Z ->
  constructed m = true ->
  valid_index (embed_user (weights m)) (model_device m) user = true ->
  valid_index (embed_item (weights m)) (model_device m) item = true ->
  length (idata item) = length (idata user) ->
  exists data,
    (forall gender age,
        forward env m user item gender age
        = Ok {| fdata := data; fdev := model_device m;
                frequires_grad := is_grad_enabled env |})
    /\ length data = length (idata user)
    /\ forall k u i,
         nth_error (idata user) k = Some u ->
         nth_error (idata item) k = Some i ->
         nth_error data k = Some (spec_base_score (weights m) u i).
Proof.
  intros H0 H1 H2 Hc Hu Hi Li.
  destruct (constructed_bias_lengths m Hc) as [Lub Lib].
  pose proof (valid_index_same_length _ (u_bias (weights m)) _ _ Lub Hu) as Hub.
  pose proof (valid_index_same_length _ (i_bias (weights m)) _ _ Lib Hi) as Hib.
  eexists; split; [|split].
  - intros gender age. base_part Hu Hi Hub Hib.
    rewrite (proj2 (Z.eqb_neq _ _) H0), (proj2 (Z.eqb_neq _ _) H1),
      (proj2 (Z.eqb_neq _ _) H2).
    cbn [rbind]. reflexivity.
  - len.
  - intros k u i Ku Ki. unfold spec_base_score.
    nth_of_columns (bias_ (weights m)).
Qed.

(** [predict] in the mode of the model, on a valid batch. *)
Lemma nth_error_side_index (t : itensor) k n :
  length (idata t) = n -> k < n ->
  nth_error (idata t) k = Some (side_index (Some t) k).
Proof.
  intros L Hk. unfold side_index. apply nth_error_nth'. lia.
Qed.

Lemma predict_by_mode env m user item g a :
  constructed m = true ->
  valid_index (embed_user (weights m)) (model_device m) user = true ->
  valid_index (embed_item (weights m)) (model_device m) item = true ->
  length (idata item) = length (idata user) ->
  mode_args_valid m (length (idata user)) g a = true ->
  exists data,
    predict env m user item g a
    = Ok {| fdata := data; fdev := CPU; frequires_grad := is_grad_enabled env |}
    /\ length data = length (idata user)
    /\ forall k u i,
         nth_error (idata user) k = Some u ->
         nth_error (idata item) k = Some i ->
         nth_error data k
         = Some (score_by_mode m u i (side_index g k) (side_index a k)).
Proof.
  intros Hc Hu Hi Li Hv.
  unfold mode_args_valid in Hv. unfold predict, score_by_mode.
  assert (Hk : forall k u, nth_error (idata user) k = Some u ->
                           k < length (idata user)).
  { intros k u E. apply nth_error_Some. congruence. }
  destruct (Z.eqb_spec (feature m) 0) as [E0|N0].
  { destruct g as [gender|]; [|discriminate]. simpl in Hv.
    apply andb_prop in Hv as [Hg Lg]. apply Nat.eqb_eq in Lg.
    destruct (forward_scores_mode_0 env m user item gender E0 Hc Hu Hi Hg Li Lg)
      as (data & Hfw & Hlen & Hnth).
    exists data. rewrite Hfw. repeat split; [exact Hlen|].
    intros k u i Ku Ki. apply Hnth; auto.
    apply nth_error_side_index with (n := length (idata user)); eauto. }
  destruct (Z.eqb_spec (feature m) 1) as [E1|N1].
  { destruct a as [age|]; [|discriminate]. simpl in Hv.
    apply andb_prop in Hv as [Ha La]. apply Nat.eqb_eq in La.
    destruct (forward_scores_mode_1 env m user item age E1 Hc Hu Hi Ha Li La)
      as (data & Hfw & Hlen & Hnth).
    exists data. rewrite Hfw. repeat split; [exact Hlen|].
    intros k u i Ku Ki. apply Hnth; auto.
    apply nth_error_side_index with (n := length (idata user)); eauto. }
  destruct (Z.eqb_spec (feature m) 2) as [E2|N2].
  { apply andb_prop in Hv as [Hg Ha].
    destruct g as [gender|]; [|discriminate].
    destruct a as [age|]; [|discriminate]. simpl in Hg, Ha.
    apply andb_prop in Hg as [Hg Lg]. apply Nat.eqb_eq in Lg.
    apply andb_prop in Ha as [Ha La]. apply Nat.eqb_eq in La.
    destruct (forward_scores_mode_2 env m user item gender age
                E2 Hc Hu Hi Hg Ha Li Lg La) as (data & Hfw & Hlen & Hnth).
    exists data. rewrite Hfw. repeat split; [exact Hlen|].
    intros k u i Ku Ki. apply Hnth; auto;
      apply nth_error_side_index with (n := length (idata user)); eauto. }
  destruct (forward_scores_no_side env m user item N0 N1 N2 Hc Hu Hi Li)
    as (data & Hfw & Hlen & Hnth).
  exists data. rewrite Hfw. repeat split; [exact Hlen|exact Hnth].
Qed.

(** X1. In mode 0, [forward] and [predict] of a valid batch return, in
    batch order, the base score plus gender.user, gender.item and the
    gender bias; the age argument plays no part. *)
Theorem predict_gender_scores env m user item gender a :
  feature m = 0%Z ->
  constructed m = true ->
  valid_index (embed_user (weights m)) (model_device m) user = true ->
  valid_index (embed_item (weights m)) (model_device m) item = true ->
  valid_index (side_table (embed_gender (weights m))) (model_device m) gender = true ->
  length (idata item) = length (idata user) ->
  length (idata gender) = length (idata user) ->
  exists out,
    forward env m user item (Some gender) a = Ok out
    /\ predict env m user item (Some gender) a = Ok (cpu out)
    /\ length (fdata out) = length (idata user)
    /\ forall k u i g,
         nth_error (idata user) k = Some u ->
         nth_error (idata item) k = Some i ->
         nth_error (idata gender) k = Some g ->
         nth_error (fdata out) k = Some (score_gender (weights m) u i g).
Proof.
  intros Hf Hc Hu Hi Hg Li Lg.
  destruct (forward_scores_mode_0 env m user item gender Hf Hc Hu Hi Hg Li Lg)
    as (data & Hfw & Hlen & Hnth).
  eexists; split; [apply Hfw|]. split; [|split; [exact Hlen|exact Hnth]].
  unfold predict. rewrite Hf. change ((0 =? 0)%Z) with true. cbn iota.
  now rewrite Hfw.
Qed.

(** X2. In mode 1, [forward] and [predict] of a valid batch return, in
    batch order, the base score plus age.user, age.item and the age bias;
    the gender argument plays no part. *)
Theorem predict_age_scores env m user item g age :
  feature m = 1%Z ->
  constructed m = true ->
  valid_index (embed_user (weights m)) (model_device m) user = true ->
  valid_index (embed_item (weights m)) (model_device m) item = true ->
  valid_index (side_table (embed_age (weights m))) (model_device m) age = true ->
  length (idata item) = length (idata user) ->
  length (idata age) = length (idata user) ->
  exists out,
    forward env m user item g (Some age) = Ok out
    /\ predict env m user item g (Some age) = Ok (cpu out)
    /\ length (fdata out) = length (idata user)
    /\ forall k u i a,
         nth_error (idata user) k = Some u ->
         nth_error (idata item) k = Some i ->
         nth_error (idata age) k = Some a ->
         nth_error (fdata out) k = Some (score_age (weights m) u i a).
Proof.
  intros Hf Hc Hu Hi Ha Li La.
  destruct (forward_scores_mode_1 env m user item age Hf Hc Hu Hi Ha Li La)
    as (data & Hfw & Hlen & Hnth).
  eexists; split; [apply Hfw|]. split; [|split; [exact Hlen|exact Hnth]].
  unfold predict. rewrite Hf.
  change ((1 =? 0)%Z) with false; change ((1 =? 1)%Z) with true. cbn iota.
  now rewrite Hfw.
Qed.

(** X3. In a mode other than 0, 1, 2, [forward] and [predict] of a valid
    batch of any length return the base score of each example, in batch
    order, whatever is passed for gender and age. *)
Theorem predict_base_scores env m user item g a :
  feature m <> 0%Z -> feature m <> 1%Z -> feature m <> 2%Z ->
  constructed m = true ->
  valid_index (embed_user (weights m)) (model_device m) user = true ->
  valid_index (embed_item (weights m)) (model_device m) item = true ->
  length (idata item) = length (idata user) ->
  exists out,
    forward env m user item g a = Ok out
    /\ predict env m user item g a = Ok (cpu out)
    /\ length (fdata out) = length (idata user)
    /\ forall k u i,
         nth_error (idata user) k = Some u ->
         nth_error (idata item) k = Some i ->
         nth_error (fdata out) k = Some (spec_base_score (weights m) u i).
Proof.
  intros H0 H1 H2 Hc Hu Hi Li.
  destruct (forward_scores_no_side env m user item H0 H1 H2 Hc Hu Hi Li)
    as (data & Hfw & Hlen & Hnth).
  eexists; split; [apply Hfw|]. split; [|split; [exact Hlen|exact Hnth]].
  unfold predict.
  rewrite (proj2 (Z.eqb_neq _ _) H0), (proj2 (Z.eqb_neq _ _) H1),
    (proj2 (Z.eqb_neq _ _) H2).
  now rewrite Hfw.
Qed.

(** X4. Ranking by broadcasting: in a mode without side-features,
    [predict] of one user against a batch of items returns one score per
    item, the base score of that user with each item in turn. *)
Theorem predict_one_user_many_items env m user item g a u :
  feature m <> 0%Z -> feature m <> 1%Z -> feature m <> 2%Z ->
  constructed m = true ->
  idata user = [u] ->
  valid_index (embed_user (weights m)) (model_device m) user = true ->
  valid_index (embed_item (weights m)) (model_device m) item = true ->
  exists out,
    predict env m user item g a = Ok out
    /\ fdev out = CPU
    /\ length (fdata out) = length (idata item)
    /\ forall k i,
         nth_error (idata item) k = Some i ->
         nth_error (fdata out) k = Some (spec_base_score (weights m) u i).
Proof.
  intros H0 H1 H2 Hc Eu Hu Hi.
  destruct (constructed_bias_lengths m Hc) as [Lub Lib].
  pose proof (valid_index_same_length _ (u_bias (weights m)) _ _ Lub Hu) as Hub.
  pose proof (valid_index_same_length _ (i_bias (weights m)) _ _ Lib Hi) as Hib.
  unfold predict.
  rewrite (proj2 (Z.eqb_neq _ _) H0), (proj2 (Z.eqb_neq _ _) H1),
    (proj2 (Z.eqb_neq _ _) H2).
  unfold forward, rowdot.
  rewrite (embedding_valid [] _ _ _ Hu), (embedding_valid [] _ _ _ Hi),
    (embedding_valid f0 _ _ _ Hub), (embedding_valid f0 _ _ _ Hib).
  rewrite Eu. cbn [map rbind].
  rewrite !broadcast2_scalar_l. cbn [rbind].
  rewrite broadcast2_scalar_r. cbn [rbind].
  rewrite iadd_same_length by (now rewrite !length_map). cbn [rbind].
  rewrite (proj2 (Z.eqb_neq _ _) H0), (proj2 (Z.eqb_neq _ _) H1),
    (proj2 (Z.eqb_neq _ _) H2).
  cbn [rbind].
  eexists; split; [reflexivity|]. split; [reflexivity|]. split.
  - simpl. rewrite zip_with_length; now rewrite !length_map.
  - intros k i Ki. simpl. unfold spec_base_score.
    apply nth_error_zip_with; rewrite !map_map;
      erewrite map_nth_error by eassumption; reflexivity.
Qed.

(** X5. User and item batches of different lengths, neither of them 1,
    cannot be broadcast: [forward] and [predict] raise the shape error, in
    every mode. *)
Theorem predict_length_mismatch env m user item g a :
  valid_index (embed_user (weights m)) (model_device m) user = true ->
  valid_index (embed_item (weights m)) (model_device m) item = true ->
  length (idata user) <> length (idata item) ->
  length (idata user) <> 1 ->
  length (idata item) <> 1 ->
  forward env m user item g a = Raise ShapeError
  /\ predict env m user item g a = Raise ShapeError.
Proof.
  intros Hu Hi Hne Hu1 Hi1.
  assert (Hfw : forall g0 a0, forward env m user item g0 a0 = Raise ShapeError).
  { intros g0 a0. unfold forward, rowdot.
    rewrite (embedding_valid [] _ _ _ Hu), (embedding_valid [] _ _ _ Hi).
    cbn [rbind].
    rewrite broadcast2_mismatch by (rewrite ?length_map; assumption).
    reflexivity. }
  split; [apply Hfw|].
  unfold predict. rewrite !Hfw.
  destruct (feature m =? 0)%Z, (feature m =? 1)%Z, (feature m =? 2)%Z;
    reflexivity.
Qed.

(** X6. An index outside its table, negative ones included, is never
    scored: with user and item batches on the model's device, if some user
    or item index is out of range, [forward] and [predict] raise the index
    error, in every mode. *)
Theorem predict_index_out_of_range env m user item g a :
  device_eqb (idev user) (model_device m) = true ->
  device_eqb (idev item) (model_device m) = true ->
  forallb (in_range (embed_user (weights m))) (idata user)
  && forallb (in_range (embed_item (weights m))) (idata item) = false ->
  forward env m user item g a = Raise IndexError
  /\ predict env m user item g a = Raise IndexError.
Proof.
  intros Du Di Hbad.
  assert (Hfw : forall g0 a0, forward env m user item g0 a0 = Raise IndexError).
  { intros g0 a0. unfold forward, embedding at 1 2. rewrite Du, Di.
    destruct (forallb (in_range (embed_user (weights m))) (idata user)) eqn:Eu.
    - rewrite (lookup_rows_in_range [] _ _ Eu). cbn [rbind].
      simpl in Hbad. now rewrite (lookup_rows_out_of_range _ _ Hbad).
    - now rewrite (lookup_rows_out_of_range _ _ Eu). }
  split; [apply Hfw|].
  unfold predict. rewrite !Hfw.
  destruct (feature m =? 0)%Z, (feature m =? 1)%Z, (feature m =? 2)%Z;
    reflexivity.
Qed.

Lemma valid_index_example_at {A} (w : list A) d t k :
  valid_index w d t = true -> valid_index w d (example_at k t) = true.
Proof.
  unfold valid_index, example_at; simpl. intros H.
  apply andb_prop in H as [Hd Hr]. rewrite Hd; simpl.
  now apply forallb_slice.
Qed.

Lemma given_valid_example_at {A} (w : list A) d n o k :
  k < n -> given_valid w d n o = true ->
  given_valid w d 1 (option_map (example_at k) o) = true.
Proof.
  intros Hk. destruct o as [t|]; simpl; [|discriminate]. intros H.
  apply andb_prop in H as [Hv Hl]. apply Nat.eqb_eq in Hl.
  rewrite (valid_index_example_at _ _ _ k Hv); simpl.
  apply Nat.eqb_eq. apply length_slice. lia.
Qed.

Lemma side_index_example_at o k :
  side_index (option_map (example_at k) o) 0 = side_index o k.
Proof.
  unfold side_index. destruct o as [t|]; simpl.
  - apply nth_slice.
  - now destruct k.
Qed.

(** X7. Scoring is example by example: on a valid batch, in every mode,
    entry [k] of what [predict] returns is what [predict] returns for
    example [k] alone. *)
Theorem predict_example_of_batch env m user item g a k :
  constructed m = true ->
  valid_index (embed_user (weights m)) (model_device m) user = true ->
  valid_index (embed_item (weights m)) (model_device m) item = true ->
  length (idata item) = length (idata user) ->
  mode_args_valid m (length (idata user)) g a = true ->
  k < length (idata user) ->
  exists out x,
    predict env m user item g a = Ok out
    /\ nth_error (fdata out) k = Some x
    /\ predict env m (example_at k user) (example_at k item)
         (option_map (example_at k) g) (option_map (example_at k) a)
       = Ok {| fdata := [x]; fdev := CPU;
               frequires_grad := is_grad_enabled env |}.
Proof.
  intros Hc Hu Hi Li Hv Hk.
  destruct (predict_by_mode env m user item g a Hc Hu Hi Li Hv)
    as (data & Hp & Hlen & Hnth).
  assert (L1 : length (idata (example_at k user)) = 1)
    by (apply length_slice; exact Hk).
  assert (L1' : length (idata (example_at k item)) = 1)
    by (apply length_slice; lia).
  assert (Hv1 : mode_args_valid m (length (idata (example_at k user)))
                  (option_map (example_at k) g) (option_map (example_at k) a)
                = true).
  { rewrite L1. unfold mode_args_valid in *.
    destruct (feature m =? 0)%Z; [now apply given_valid_example_at with (n := length (idata user))|].
    destruct (feature m =? 1)%Z; [now apply given_valid_example_at with (n := length (idata user))|].
    destruct (feature m =? 2)%Z; [|reflexivity].
    apply andb_prop in Hv as [Hg Ha]. apply andb_true_intro; split;
      now apply given_valid_example_at with (n := length (idata user)). }
  destruct (predict_by_mode env m (example_at k user) (example_at k item)
              (option_map (example_at k) g) (option_map (example_at k) a) Hc
              (valid_index_example_at _ _ _ k Hu)
              (valid_index_example_at _ _ _ k Hi)
              (eq_trans L1' (eq_sym L1)) Hv1)
    as (data1 & Hp1 & Hlen1 & Hnth1).
  destruct (nth_error (idata user) k) as [u|] eqn:Ku;
    [|apply nth_error_None in Ku; lia].
  destruct (nth_error (idata item) k) as [i|] eqn:Ki;
    [|apply nth_error_None in Ki; lia].
  exists {| fdata := data; fdev := CPU; frequires_grad := is_grad_enabled env |},
    (score_by_mode m u i (side_index g k) (side_index a k)).
  split; [exact Hp|]. split; [now apply Hnth|].
  rewrite Hp1. f_equal. f_equal.
  rewrite L1 in Hlen1.
  destruct data1 as [|y [|y' data1]]; try discriminate.
  f_equal.
  specialize (Hnth1 0 u i).
  unfold example_at at 1 2 in Hnth1. cbn [idata] in Hnth1.
  rewrite !nth_error_slice in Hnth1.
  specialize (Hnth1 Ku Ki). rewrite !side_index_example_at in Hnth1.
  now inversion Hnth1.
Qed.

End ScoringByMode.

(** ** What [fit] keeps and what it leaves behind *)

Section TrainingInvariants.
Context {T : Type} {TO : FloatOps T} {P : Type} {PO : FloatOps P}.
Variable bce_with_logits_sum : list T -> list T -> result T.
Variable sgd_step : P -> (params T -> result T) -> params T -> params T.
Variable tensor_item : T -> P.
Variable py_1e_5 : P.

Local Notation "'train_batch_'" := (train_batch bce_with_logits_sum sgd_step tensor_item).
Local Notation "'batch_loop_'" := (batch_loop bce_with_logits_sum sgd_step tensor_item).
Local Notation "'run_epoch_'" := (run_epoch bce_with_logits_sum sgd_step tensor_item).
Local Notation "'epoch_loop_'" :=
  (epoch_loop bce_with_logits_sum sgd_step tensor_item py_1e_5).
Local Notation "'run_fit_'" := (run_fit bce_with_logits_sum sgd_step tensor_item py_1e_5).

Implicit Types (s : fit_state T P) (m : PointFM T P) (c : criterion).

(** A batch changes nothing of the model but its parameters. *)
Local Notation "'reweighted' m m'" := (exists w, m' = set_weights m w)
  (at level 10, m at level 9, m' at level 9).

Lemma set_weights_same m : set_weights m (weights m) = m.
Proof. now destruct m. Qed.

Lemma train_batch_reweighted env c b cur s :
  reweighted (model s) (model (snd (train_batch_ env c b cur s))).
Proof.
  unfold train_batch, bind, emit, get_model, lift, put_model, raise, ret; simpl.
  destruct (batch_to_cuda env (model s) b) as [[[[[user item] label] gender] age]|e];
    simpl; [|exists (weights (model s)); now rewrite set_weights_same].
  destruct (batch_loss _ _ _ _ _ _ _ _ _) as [loss|e];
    simpl; [|exists (weights (model s)); now rewrite set_weights_same].
  destruct (fisnan loss); simpl; eexists;
    [now rewrite set_weights_same | reflexivity].
Qed.

Lemma batch_loop_reweighted env c bs cur s :
  reweighted (model s) (model (snd (batch_loop_ env c bs cur s))).
Proof.
  revert cur s; induction bs as [|b bs IH]; intros cur s; simpl.
  - exists (weights (model s)); now rewrite set_weights_same.
  - unfold bind.
    destruct (train_batch_reweighted env c b cur s) as [w Hw].
    destruct (train_batch_ env c b cur s) as [[cur'|e] s1]; simpl in *.
    + destruct (IH cur' s1) as [w' Hw']. exists w'. now rewrite Hw', Hw.
    + now exists w.
Qed.

Lemma run_epoch_reweighted env c ld epoch s :
  reweighted (set_training (model s) true)
    (model (snd (run_epoch_ env c ld epoch s))).
Proof.
  unfold run_epoch, bind, get_model, put_model, emit; simpl.
  match goal with
  | |- context [batch_loop_ env c ?bs ?z ?s0] =>
      destruct (batch_loop_reweighted env c bs z s0) as [w Hw]
  end.
  now exists w.
Qed.

(** The configuration and the device through the loops. *)
Local Notation "'kept' m m'" :=
  (same_config m m' /\ model_device m' = model_device m)
  (at level 10, m at level 9, m' at level 9).

Lemma kept_refl m : kept m m.
Proof. unfold same_config; repeat split. Qed.

Lemma kept_trans m1 m2 m3 : kept m1 m2 -> kept m2 m3 -> kept m1 m3.
Proof.
  unfold same_config. intros [H1 D1] [H2 D2].
  decompose [and] H1; decompose [and] H2. repeat split; congruence.
Qed.

Lemma epoch_loop_kept env c ld es last s :
  kept (model s) (model (snd (epoch_loop_ env c ld es last s))).
Proof.
  revert last s; induction es as [|epoch es IH]; intros last s; simpl.
  - apply kept_refl.
  - unfold bind, get_model, put_model.
    destruct (run_epoch_reweighted env c ld epoch s) as [w Hw].
    destruct (run_epoch_ env c ld epoch s) as [[cur|e] s1]; simpl in *.
    + assert (K : kept (model s) (set_training (model s1) false)).
      { rewrite Hw. unfold same_config; simpl; repeat split. }
      destruct (fltb _ _ && _); simpl.
      * exact K.
      * eapply kept_trans; [exact K|].
        match goal with
        | |- context [epoch_loop_ env c ld es cur ?s2] => apply (IH cur s2)
        end.
    + rewrite Hw. unfold same_config; simpl; repeat split.
Qed.

Lemma fit_keeps_device env m ld :
  model_device (model (snd (run_fit_ env m ld))) = fit_device env.
Proof.
  rewrite run_fit_unfold.
  destruct (fltb (lr m) f0); [reflexivity|].
  destruct (criterion_of (loss_type m)) as [c|e]; simpl; [|reflexivity].
  match goal with
  | |- context [epoch_loop_ env c ld ?es ?l0 ?s0] =>
      destruct (epoch_loop_kept env c ld es l0 s0) as [_ D]
  end.
  exact D.
Qed.

(** X8. Whatever the loader and however the call ends, [fit] leaves the
    hyperparameters and the mode of the model as [__init__] set them, and
    the model on the device chosen at the start. *)
Theorem fit_keeps_configuration env m ld :
  same_config m (model (snd (run_fit_ env m ld)))
  /\ model_device (model (snd (run_fit_ env m ld))) = fit_device env.
Proof.
  rewrite run_fit_unfold.
  destruct (fltb (lr m) f0); [unfold same_config; simpl; repeat split|].
  destruct (criterion_of (loss_type m)) as [c|e]; simpl.
  - match goal with
    | |- context [epoch_loop_ env c ld ?es ?l0 ?s0] =>
        destruct (epoch_loop_kept env c ld es l0 s0) as [K D]
    end.
    simpl in *. split; [exact K | exact D].
  - unfold same_config; simpl; repeat split.
Qed.

Lemma epoch_loop_training env c ld es last s :
  (es = [] -> training (model s) = false) ->
  training (model (snd (epoch_loop_ env c ld es last s)))
  = negb (is_ok (fst (epoch_loop_ env c ld es last s))).
Proof.
  revert last s; induction es as [|epoch es IH]; intros last s Hs; simpl.
  - now apply Hs.
  - unfold bind, get_model, put_model.
    destruct (run_epoch_reweighted env c ld epoch s) as [w Hw].
    destruct (run_epoch_ env c ld epoch s) as [[cur|e] s1]; simpl in *.
    + destruct (fltb _ _ && _); simpl; [reflexivity|].
      match goal with
      | |- context [epoch_loop_ env c ld es cur ?s2] => apply (IH cur s2)
      end.
      reflexivity.
    + now rewrite Hw.
Qed.

(** X9. When [fit] gets as far as its first epoch (a learning rate that
    is not negative, a valid loss type, at least one epoch), the mode flag
    tells how the call ended: evaluation mode after a normal return,
    training mode after an exception. *)
Theorem fit_mode_flag env m ld c :
  fltb (lr m) f0 = false ->
  criterion_of (loss_type m) = Ok c ->
  (1 <= epochs m)%Z ->
  training (model (snd (run_fit_ env m ld)))
  = negb (is_ok (fst (run_fit_ env m ld))).
Proof.
  intros Hlr Hc Hn. rewrite (run_fit_started bce_with_logits_sum sgd_step tensor_item py_1e_5 env m ld Hlr Hc).
  apply epoch_loop_training.
  replace (Z.to_nat (epochs m)) with (S (Z.to_nat (epochs m) - 1)) by lia.
  discriminate.
Qed.

Lemma run_epoch_started env c ld epoch s :
  filter is_epoch (log (snd (run_epoch_ env c ld epoch s)))
  = filter is_epoch (log s) ++ [EvEpoch epoch].
Proof.
  unfold run_epoch, bind, get_model, put_model, emit; simpl.
  match goal with
  | |- context [batch_loop_ env c ?bs ?z ?s0] =>
      destruct (batch_loop_same_run bce_with_logits_sum sgd_step tensor_item
                  env c bs z s0) as [_ Hl]
  end.
  simpl in Hl. rewrite Hl, filter_app. reflexivity.
Qed.

Lemma epoch_loop_without_early_stop env c ld es last s :
  early_stop (model s) = false ->
  fst (epoch_loop_ env c ld es last s) = Ok tt ->
  filter is_epoch (log (snd (epoch_loop_ env c ld es last s)))
  = filter is_epoch (log s) ++ map EvEpoch es.
Proof.
  revert last s; induction es as [|epoch es IH]; intros last s Hes; simpl.
  - intros _. now rewrite app_nil_r.
  - unfold bind, get_model, put_model.
    pose proof (run_epoch_started env c ld epoch s) as Hst.
    destruct (run_epoch_reweighted env c ld epoch s) as [w Hw].
    destruct (run_epoch_ env c ld epoch s) as [[cur|e] s1]; simpl in *;
      [|discriminate].
    assert (Hes1 : early_stop (model s1) = false) by now rewrite Hw.
    rewrite Hes1, andb_false_r.
    intros Hok.
    match goal with
    | |- context [epoch_loop_ env c ld es cur ?s2] =>
        rewrite (IH cur s2) by (simpl; assumption)
    end.
    simpl. rewrite Hst, <- app_assoc. reflexivity.
Qed.

(** X10. With early stopping off, a [fit] that returns normally has run
    every configured epoch, in the order 1, 2, ..., [epochs]. *)
Theorem fit_without_early_stop env m ld :
  early_stop m = false ->
  fst (run_fit_ env m ld) = Ok tt ->
  filter is_epoch (log (snd (run_fit_ env m ld)))
  = map EvEpoch (seq 1 (Z.to_nat (epochs m))).
Proof.
  intros Hes. rewrite run_fit_unfold.
  destruct (fltb (lr m) f0); [simpl; discriminate|].
  destruct (criterion_of (loss_type m)) as [c|e]; simpl; [|discriminate].
  intros Hok.
  rewrite epoch_loop_without_early_stop by assumption.
  reflexivity.
Qed.

(** Batches drawn, backward passes and optimizer steps, counted on the
    log: a step of the loops adds as many steps as backward passes, and
    one batch more than steps exactly when it raises. *)
Local Notation "'balanced' s r s'" :=
  (count_events is_batch (log s') + count_events is_step (log s)
   = count_events is_batch (log s) + count_events is_step (log s')
     + (if is_ok r then 0 else 1)
   /\ count_events is_backward (log s') + count_events is_step (log s)
      = count_events is_backward (log s) + count_events is_step (log s'))
  (at level 10, s at level 9, r at level 9, s' at level 9).

Ltac count_log :=
  unfold count_events; repeat rewrite filter_app; simpl;
  repeat rewrite length_app; simpl; lia.

Lemma train_batch_balanced env c b cur s :
  count_events is_batch (log (snd (train_batch_ env c b cur s)))
  + count_events is_step (log s)
  = count_events is_batch (log s)
    + count_events is_step (log (snd (train_batch_ env c b cur s))) + 1
  /\ count_events is_backward (log (snd (train_batch_ env c b cur s)))
     + count_events is_step (log s)
     = count_events is_backward (log s)
       + count_events is_step (log (snd (train_batch_ env c b cur s)))
  /\ is_ok (fst (train_batch_ env c b cur s)) = false
  \/ count_events is_batch (log (snd (train_batch_ env c b cur s)))
     + count_events is_step (log s)
     = count_events is_batch (log s)
       + count_events is_step (log (snd (train_batch_ env c b cur s)))
     /\ count_events is_backward (log (snd (train_batch_ env c b cur s)))
        + count_events is_step (log s)
        = count_events is_backward (log s)
          + count_events is_step (log (snd (train_batch_ env c b cur s)))
     /\ is_ok (fst (train_batch_ env c b cur s)) = true.
Proof.
  unfold train_batch, bind, emit, get_model, lift, put_model, raise, ret; simpl.
  destruct (batch_to_cuda env (model s) b) as [[[[[user item] label] gender] age]|e];
    simpl; [|left; repeat split; count_log].
  destruct (batch_loss _ _ _ _ _ _ _ _ _) as [loss|e];
    simpl; [|left; repeat split; count_log].
  destruct (fisnan loss); simpl; [left|right]; repeat split; count_log.
Qed.

Lemma batch_loop_balanced env c bs cur s :
  balanced s (fst (batch_loop_ env c bs cur s)) (snd (batch_loop_ env c bs cur s)).
Proof.
  revert cur s; induction bs as [|b bs IH]; intros cur s; simpl.
  - lia.
  - unfold bind.
    pose proof (train_batch_balanced env c b cur s) as Hb.
    destruct (train_batch_ env c b cur s) as [[cur'|e] s1]; simpl in *.
    + destruct Hb as [(_ & _ & Hf)|(Hb1 & Hb2 & _)]; [discriminate|].
      destruct (IH cur' s1) as [I1 I2].
      destruct (is_ok (fst (batch_loop_ env c bs cur' s1))); lia.
    + destruct Hb as [(Hb1 & Hb2 & _)|(_ & _ & Hf)]; [lia|discriminate].
Qed.

Lemma run_epoch_balanced env c ld epoch s :
  balanced s (fst (run_epoch_ env c ld epoch s)) (snd (run_epoch_ env c ld epoch s)).
Proof.
  unfold run_epoch, bind, get_model, put_model, emit; simpl.
  match goal with
  | |- context [batch_loop_ env c ?bs ?z ?s0] =>
      destruct (batch_loop_balanced env c bs z s0) as [I1 I2];
      destruct (batch_loop_ env c bs z s0) as [r s1]
  end.
  simpl in *.
  assert (E1 : count_events is_batch (log s ++ [EvEpoch epoch])
               = count_events is_batch (log s)) by count_log.
  assert (E2 : count_events is_step (log s ++ [EvEpoch epoch])
               = count_events is_step (log s)) by count_log.
  assert (E3 : count_events is_backward (log s ++ [EvEpoch epoch])
               = count_events is_backward (log s)) by count_log.
  rewrite E1, E2 in I1. rewrite E3, E2 in I2. split; assumption.
Qed.

Lemma epoch_loop_balanced env c ld es last s :
  balanced s (fst (epoch_loop_ env c ld es last s))
    (snd (epoch_loop_ env c ld es last s)).
Proof.
  revert last s; induction es as [|epoch es IH]; intros last s; simpl.
  - lia.
  - unfold bind, get_model, put_model.
    destruct (run_epoch_balanced env c ld epoch s) as [I1 I2].
    destruct (run_epoch_ env c ld epoch s) as [[cur|e] s1]; simpl in *;
      [|split; lia].
    destruct (fltb _ _ && _); simpl.
    + assert (E1 : count_events is_batch (log s1 ++ [EvPrint stop_message])
                   = count_events is_batch (log s1)) by count_log.
      assert (E2 : count_events is_step (log s1 ++ [EvPrint stop_message])
                   = count_events is_step (log s1)) by count_log.
      assert (E3 : count_events is_backward (log s1 ++ [EvPrint stop_message])
                   = count_events is_backward (log s1)) by count_log.
      rewrite E1, E2, E3. split; lia.
    + match goal with
      | |- context [epoch_loop_ env c ld es cur ?s2] =>
          destruct (IH cur s2) as [J1 J2];
          destruct (epoch_loop_ env c ld es cur s2) as [r s3]
      end.
      simpl in *. destruct (is_ok r); split; lia.
Qed.

(** X11. Every batch that [fit] draws is trained on, except the one on
    which it raises: backward passes and optimizer steps come in equal
    number, never more than the batches drawn, and one fewer at most, and
    only when [fit] ends in an exception. *)
Theorem fit_steps_match_batches env m ld :
  count_events is_backward (log (snd (run_fit_ env m ld)))
  = count_events is_step (log (snd (run_fit_ env m ld)))
  /\ count_events is_step (log (snd (run_fit_ env m ld)))
     <= count_events is_batch (log (snd (run_fit_ env m ld)))
  /\ count_events is_batch (log (snd (run_fit_ env m ld)))
     - count_events is_step (log (snd (run_fit_ env m ld)))
     <= (if is_ok (fst (run_fit_ env m ld)) then 0 else 1).
Proof.
  rewrite run_fit_unfold.
  destruct (fltb (lr m) f0);
    [simpl; unfold count_events; simpl; repeat split; lia|].
  destruct (criterion_of (loss_type m)) as [c|e].
  - match goal with
    | |- context [epoch_loop_ env c ld ?es ?l0 ?s0] =>
        destruct (epoch_loop_balanced env c ld es l0 s0) as [I1 I2];
        destruct (epoch_loop_ env c ld es l0 s0) as [r s1]
    end.
    unfold count_events in *; simpl in *.
    destruct (is_ok r); repeat split; lia.
  - simpl. unfold count_events; simpl. repeat split; lia.
Qed.

(** X12. Once the optimizer and the criterion are built (a learning rate
    that is not negative, a valid loss type), a first batch whose loss is
    NaN stops [fit] with the [ValueError] before any gradient step: the
    parameters are those the call started with and the log ends at
    [zero_grad]. *)
Theorem fit_nan_loss_raises env m ld c b bs user item label gender age loss :
  fltb (lr m) f0 = false ->
  criterion_of (loss_type m) = Ok c ->
  (1 <= epochs m)%Z ->
  ld 0 = b :: bs ->
  batch_to_cuda env (set_training (set_device m (fit_device env)) true) b
  = Ok (user, item, label, gender, age) ->
  batch_loss bce_with_logits_sum env c
    (set_training (set_device m (fit_device env)) true)
    user item gender age label = Ok loss ->
  fisnan loss = true ->
  run_fit_ env m ld
  = (Raise (ValueError nan_message),
     {| model := set_training (set_device m (fit_device env)) true;
        log := [EvModelTo (fit_device env); EvEpoch 1; EvBatch; EvZeroGrad] |})
  /\ weights (model (snd (run_fit_ env m ld))) = weights m.
Proof.
  intros Hlr Hc Hn Hld Hmv Hloss Hnan.
  assert (E : run_fit_ env m ld
              = (Raise (ValueError nan_message),
                 {| model := set_training (set_device m (fit_device env)) true;
                    log := [EvModelTo (fit_device env); EvEpoch 1; EvBatch;
                            EvZeroGrad] |})).
  { rewrite (run_fit_started bce_with_logits_sum sgd_step tensor_item py_1e_5 env m ld Hlr Hc).
    replace (Z.to_nat (epochs m)) with (S (Z.to_nat (epochs m) - 1)) by lia.
    cbn [seq epoch_loop].
    unfold bind at 1. unfold run_epoch, bind, get_model, put_model, emit; simpl.
    rewrite Hld; simpl. unfold bind.
    rewrite (train_batch_guard bce_with_logits_sum sgd_step tensor_item env c b
               f0
               {| model := set_training (set_device m (fit_device env)) true;
                  log := [EvModelTo (fit_device env); EvEpoch 1] |}
               Hmv Hloss).
    rewrite Hnan. reflexivity. }
  rewrite E. split; reflexivity.
Qed.

(** X13. After a [fit] on a machine with a GPU the model is on the GPU,
    however the call ended: [predict] with user indices that are still on
    the CPU raises the device error, in every mode. *)
Theorem predict_after_fit_on_gpu env env' m ld u i g a :
  cuda_is_available env = true ->
  idev u = CPU ->
  predict env' (model (snd (run_fit_ env m ld))) u i g a = Raise DeviceError.
Proof.
  intros Hgpu Hu.
  pose proof (fit_keeps_device env m ld) as D.
  assert (Hfw : forall g0 a0,
             forward env' (model (snd (run_fit_ env m ld))) u i g0 a0
             = Raise DeviceError).
  { intros g0 a0. unfold forward, embedding at 1.
    rewrite D, Hu. unfold fit_device. rewrite Hgpu. reflexivity. }
  unfold predict. rewrite !Hfw.
  repeat match goal with
         | |- context [if ?b then _ else _] => destruct b
         end; reflexivity.
Qed.

End TrainingInvariants.

(** ** The model that [__init__] builds *)

Section Construction.
Context {T : Type} {TO : FloatOps T} {P : Type}.

Lemma normal__rows (randn : nat -> T) start rows cols :
  Forall (fun r => length r = cols) (normal_ randn start rows cols).
Proof.
  unfold normal_. apply Forall_forall. intros r Hr.
  apply in_map_iff in Hr as (k & <- & _).
  now rewrite length_map, length_seq.
Qed.

(** X14. [__init__] allocates a [user_num x factors] and an
    [item_num x factors] table, one zero bias per user and per item and a
    zero global bias; a [2 x factors] gender table with two zero biases
    exactly in modes 0 and 2, a [3 x factors] age table with three zero
    biases exactly in modes 1 and 2; the new model is on the CPU, in
    training mode. *)
Theorem PointFM_init_shapes (randn : nat -> T) user_num item_num factors
    epochs (lr : P) reg_1 reg_2 loss_type optimizer feature early_stop :
  let m := PointFM_init randn user_num item_num factors epochs lr reg_1 reg_2
             loss_type optimizer feature early_stop in
  let w := weights m in
  (length (embed_user w) = user_num
   /\ Forall (fun r => length r = factors) (embed_user w))
  /\ (length (embed_item w) = item_num
      /\ Forall (fun r => length r = factors) (embed_item w))
  /\ u_bias w = repeat f0 user_num
  /\ i_bias w = repeat f0 item_num
  /\ bias_ w = f0
  /\ match embed_gender w, g_bias w with
     | Some tg, Some bg =>
         (feature = 0 \/ feature = 2)%Z
         /\ length tg = 2 /\ Forall (fun r => length r = factors) tg
         /\ bg = [f0; f0]
     | None, None => feature <> 0%Z /\ feature <> 2%Z
     | _, _ => False
     end
  /\ match embed_age w, a_bias w with
     | Some ta, Some ba =>
         (feature = 1 \/ feature = 2)%Z
         /\ length ta = 3 /\ Forall (fun r => length r = factors) ta
         /\ ba = [f0; f0; f0]
     | None, None => feature <> 1%Z /\ feature <> 2%Z
     | _, _ => False
     end
  /\ model_device m = CPU
  /\ training m = true.
Proof.
  cbn zeta. unfold PointFM_init, constant_0; cbn [weights embed_user embed_item
    u_bias i_bias bias_ embed_gender g_bias embed_age a_bias model_device training].
  repeat split; try apply normal__length; try apply normal__rows.
  - destruct (Z.eqb_spec feature 0) as [E0|N0];
      [|destruct (Z.eqb_spec feature 2) as [E2|N2]]; cbn [orb];
      repeat split; auto; try apply normal__length; try apply normal__rows.
  - destruct (Z.eqb_spec feature 1) as [E1|N1];
      [|destruct (Z.eqb_spec feature 2) as [E2|N2]]; cbn [orb];
      repeat split; auto; try apply normal__length; try apply normal__rows.
Qed.

End Construction.

(** ** The regression loss in float32 *)

Section Float32Signs.
Variables prec emax : Z.

Lemma binary_round_aux_not_negative m e l :
  sf_not_negative (binary_round_aux prec emax false m e l) = true.
Proof.
  unfold binary_round_aux.
  destruct (shr_fexp prec emax m e l) as [mrs' e'].
  destruct (shr_fexp prec emax _ e' loc_Exact) as [mrs'' e''].
  destruct (shr_m mrs''); [reflexivity| |reflexivity].
  destruct (Z.leb e'' (Z.sub emax prec)); reflexivity.
Qed.

Lemma binary_round_not_negative m e :
  sf_not_negative (binary_round prec emax false m e) = true.
Proof.
  unfold binary_round. destruct (shl_align m e _) as [mz ez].
  apply binary_round_aux_not_negative.
Qed.

Lemma SFadd_not_negative x y :
  sf_not_negative x = true -> sf_not_negative y = true ->
  sf_not_negative (SFadd prec emax x y) = true.
Proof.
  destruct x as [sx|sx| |sx mx ex], y as [sy|sy| |sy my ey]; simpl;
    intros Hx Hy; try reflexivity; try assumption;
    try (destruct sx, sy; simpl in *; try discriminate; reflexivity).
  apply negb_true_iff in Hx, Hy. subst sx sy.
  unfold SFadd, cond_Zopp.
  destruct (shl_align mx ex (Z.min ex ey)) as [px qx].
  destruct (shl_align my ey (Z.min ex ey)) as [py qy].
  cbn [fst Z.add binary_normalize].
  apply binary_round_not_negative.
Qed.

Lemma SFmul_not_negative x y :
  sf_not_negative x = true -> sf_not_negative y = true ->
  sf_not_negative (SFmul prec emax x y) = true.
Proof.
  destruct x as [sx|sx| |sx mx ex], y as [sy|sy| |sy my ey]; simpl;
    intros Hx Hy; try reflexivity;
    try (apply negb_true_iff in Hx; subst sx);
    try (apply negb_true_iff in Hy; subst sy);
    try reflexivity.
  apply binary_round_aux_not_negative.
Qed.

Lemma SFmul_square_not_negative x :
  sf_not_negative (SFmul prec emax x x) = true.
Proof.
  destruct x as [sx|sx| |sx mx ex]; simpl; try reflexivity;
    try (destruct sx; reflexivity).
  replace (xorb sx sx) with false by (destruct sx; reflexivity).
  apply binary_round_aux_not_negative.
Qed.

Lemma SFabs_not_negative x : sf_not_negative (SFabs x) = true.
Proof. destruct x; reflexivity. Qed.

Lemma SFsqrt_not_negative x : sf_not_negative (SFsqrt prec emax x) = true.
Proof.
  destruct x as [sx|sx| |sx mx ex]; simpl; try reflexivity;
    try (destruct sx; reflexivity).
  destruct sx; [reflexivity|].
  destruct (SFsqrt_core_binary prec emax (Zpos mx) ex) as [[mz ez] lz].
  apply binary_round_aux_not_negative.
Qed.

Lemma SFltb_zero_not_negative x :
  SFltb x (S754_zero false) = false <-> sf_not_negative x = true.
Proof.
  destruct x as [sx|sx| |sx mx ex]; unfold SFltb; simpl;
    try (destruct sx; simpl); split; intros H; try reflexivity;
    try discriminate.
Qed.

End Float32Signs.

Section Float32Loss.
Context {P : Type}.
Variable bce_with_logits_sum : list binary32 -> list binary32 -> result binary32.
Implicit Types (m : PointFM binary32 P) (x y : binary32).

Local Notation "'not_negative' x" := (sf_not_negative (b32 x) = true)
  (at level 10, x at level 9).

Lemma fltb_zero_not_negative x : fltb x f0 = false <-> not_negative x.
Proof. destruct x as [v]. apply SFltb_zero_not_negative. Qed.

Lemma fold_left_fadd_not_negative (l : list binary32) (acc : binary32) :
  not_negative acc -> Forall (fun v => not_negative v) l ->
  not_negative (fold_left fadd l acc).
Proof.
  intros Hacc Hl; revert acc Hacc.
  induction Hl as [|v l Hv _ IH]; intros acc Hacc; simpl; [exact Hacc|].
  apply IH. now apply SFadd_not_negative.
Qed.

Lemma norm_1_not_negative (w : list (list binary32)) : not_negative (norm_1 w).
Proof.
  unfold norm_1. apply fold_left_fadd_not_negative; [reflexivity|].
  apply Forall_forall; intros v Hv.
  apply in_map_iff in Hv as (z & <- & _). apply SFabs_not_negative.
Qed.

Lemma norm_2_not_negative (w : list (list binary32)) : not_negative (norm_2 w).
Proof. unfold norm_2. apply SFsqrt_not_negative. Qed.

Lemma squares_not_negative (xs ys sq : list binary32) :
  broadcast2 (fun x y => fmul (fsub x y) (fsub x y)) xs ys = Ok sq ->
  Forall (fun v => not_negative v) sq.
Proof.
  assert (Hsq : forall x y, not_negative (fmul (fsub x y) (fsub x y)))
    by (intros x y; apply SFmul_square_not_negative).
  assert (Hmap : forall (f : binary32 -> binary32) l,
             (forall z, not_negative (f z)) ->
             Forall (fun v => not_negative v) (map f l)).
  { intros f l Hf. induction l; simpl; constructor; auto. }
  unfold broadcast2. destruct (Nat.eqb (length xs) (length ys)).
  - intros H; inversion H; subst sq; clear H.
    revert ys; induction xs as [|x xs IH]; intros [|y ys]; cbn [zip_with];
      try apply Forall_nil.
    apply Forall_cons; [apply Hsq | apply IH].
  - destruct xs as [|x [|x' xs]], ys as [|y [|y' ys]]; intros H;
      inversion H; subst sq; clear H; cbn [map];
      repeat (apply Forall_cons; [apply Hsq|]);
      first [ apply Forall_nil | apply Hmap; intros z; apply Hsq ].
Qed.

Lemma mse_sum_not_negative (input target : list binary32) l :
  mse_sum input target = Ok l -> not_negative l.
Proof.
  unfold mse_sum.
  destruct (broadcast2 _ input target) as [sq|e] eqn:E; cbn [rbind];
    [|discriminate].
  intros H; inversion H; subst l.
  apply fold_left_fadd_not_negative; [reflexivity|].
  eapply squares_not_negative; eauto.
Qed.

Lemma penalty_not_negative (r n n' : binary32) :
  not_negative r -> not_negative n -> not_negative n' ->
  not_negative (fmul r (fadd n n')).
Proof.
  intros Hr Hn Hn'. apply SFmul_not_negative; [exact Hr|].
  now apply SFadd_not_negative.
Qed.

#[local] Opaque norm_1 norm_2 mse_sum.

(** X15. In float32, with the regression loss and coefficients [reg_1],
    [reg_2] that are not below zero, the per-batch loss of [fit] is never
    below zero: it is a number that is not negative, plus infinity or
    NaN. *)
Theorem regression_loss_never_negative env m user item gender age label :
  fltb (reg_1 m) f0 = false ->
  fltb (reg_2 m) f0 = false ->
  match batch_loss bce_with_logits_sum env MSELoss m user item gender age label with
  | Ok l => fltb l f0 = false
  | Raise _ => True
  end.
Proof.
  intros H1 H2.
  apply fltb_zero_not_negative in H1, H2.
  unfold batch_loss.
  destruct (fit_forward env m user item gender age) as [pred|e]; cbn [rbind];
    [|exact I].
  unfold fit_loss, apply_criterion.
  destruct (device_eqb (fdev pred) (fdev label)); cbn [rbind]; [|exact I].
  destruct (mse_sum (fdata pred) (fdata label)) as [l0|e] eqn:E; cbn [rbind];
    [|exact I].
  apply mse_sum_not_negative in E.
  assert (B : not_negative
                (fadd (fadd l0 (fmul (reg_1 m)
                                  (fadd (norm_1 (embed_item (weights m)))
                                        (norm_1 (embed_user (weights m))))))
                      (fmul (reg_2 m)
                         (fadd (norm_2 (embed_item (weights m)))
                               (norm_2 (embed_user (weights m))))))).
  { apply SFadd_not_negative; [apply SFadd_not_negative; [exact E|]|];
      apply penalty_not_negative;
      auto using norm_1_not_negative, norm_2_not_negative. }
  destruct (feature m =? 0)%Z.
  { destruct (embed_gender (weights m)) as [tg|]; cbn [attr rbind]; [|exact I].
    apply fltb_zero_not_negative.
    apply SFadd_not_negative; [apply SFadd_not_negative; [exact B|]|];
      apply SFmul_not_negative;
      auto using norm_1_not_negative, norm_2_not_negative. }
  destruct (feature m =? 1)%Z.
  { destruct (embed_age (weights m)) as [ta|]; cbn [attr rbind]; [|exact I].
    apply fltb_zero_not_negative.
    apply SFadd_not_negative; [apply SFadd_not_negative; [exact B|]|];
      apply SFmul_not_negative;
      auto using norm_1_not_negative, norm_2_not_negative. }
  destruct (feature m =? 2)%Z; [|now apply fltb_zero_not_negative].
  destruct (embed_gender (weights m)) as [tg|]; cbn [attr rbind]; [|exact I].
  destruct (embed_age (weights m)) as [ta|]; cbn [attr rbind]; [|exact I].
  apply fltb_zero_not_negative.
  apply SFadd_not_negative; [apply SFadd_not_negative; [exact B|]|];
    apply penalty_not_negative;
    auto using norm_1_not_negative, norm_2_not_negative.
Qed.

End Float32Loss.

(** ** Loaders without batches and batches without side-features *)

Section TrainingEdges.
Context {T : Type} {TO : FloatOps T} {P : Type} {PO : FloatOps P}.
Variable bce_with_logits_sum : list T -> list T -> result T.
Variable sgd_step : P -> (params T -> result T) -> params T -> params T.
Variable tensor_item : T -> P.
Variable py_1e_5 : P.

Local Notation "'run_epoch_'" := (run_epoch bce_with_logits_sum sgd_step tensor_item).
Local Notation "'epoch_loop_'" :=
  (epoch_loop bce_with_logits_sum sgd_step tensor_item py_1e_5).
Local Notation "'run_fit_'" := (run_fit bce_with_logits_sum sgd_step tensor_item py_1e_5).

Implicit Types (s : fit_state T P) (m : PointFM T P) (c : criterion).

Lemma epoch_loop_no_batches env c ld es last s :
  (forall k, ld k = []) ->
  fst (epoch_loop_ env c ld es last s) = Ok tt
  /\ weights (model (snd (epoch_loop_ env c ld es last s))) = weights (model s)
  /\ filter is_batch (log (snd (epoch_loop_ env c ld es last s)))
     = filter is_batch (log s).
Proof.
  intros Hld. revert last s; induction es as [|epoch es IH]; intros last s; simpl.
  - repeat split.
  - unfold bind, get_model, put_model, run_epoch, emit; simpl.
    rewrite Hld; simpl.
    destruct (fltb _ _ && _); simpl.
    + repeat split. repeat rewrite filter_app; simpl. now rewrite !app_nil_r.
    + match goal with
      | |- context [epoch_loop_ env c ld es ?l0 ?s2] =>
          destruct (IH l0 s2) as (I1 & I2 & I3)
      end.
      simpl in *. rewrite I1, I2, I3.
      repeat split. rewrite filter_app; simpl. now rewrite app_nil_r.
Qed.

(** X16. With a loader that never yields a batch, [fit] returns normally
    for any learning rate that is not negative, any valid loss type and
    any number of epochs, draws no batch and leaves the parameters as they
    were. *)
Theorem fit_without_batches env m ld c :
  fltb (lr m) f0 = false ->
  criterion_of (loss_type m) = Ok c ->
  (forall k, ld k = []) ->
  fst (run_fit_ env m ld) = Ok tt
  /\ weights (model (snd (run_fit_ env m ld))) = weights m
  /\ count_events is_batch (log (snd (run_fit_ env m ld))) = 0.
Proof.
  intros Hlr Hc Hld. rewrite (run_fit_started bce_with_logits_sum sgd_step tensor_item py_1e_5 env m ld Hlr Hc).
  match goal with
  | |- context [epoch_loop_ env c ld ?es ?l0 ?s0] =>
      destruct (epoch_loop_no_batches env c ld es l0 s0 Hld) as (I1 & I2 & I3)
  end.
  unfold count_events. rewrite I1, I2, I3. repeat split.
Qed.

Lemma batch_to_cuda_omitted env m (b : batch T) :
  cuda_is_available env = true ->
  batch_omits_required m b = true ->
  batch_to_cuda env m b = Raise AttributeError.
Proof.
  intros Hgpu. unfold batch_omits_required, batch_to_cuda, icuda, fcuda, opt_cuda.
  rewrite Hgpu. cbn [rbind].
  destruct (feature m =? 0)%Z.
  { destruct (b_gender b); [discriminate|reflexivity]. }
  destruct (feature m =? 1)%Z.
  { destruct (b_age b); [discriminate|reflexivity]. }
  destruct (feature m =? 2)%Z; [|discriminate].
  destruct (b_gender b) as [gt|]; [|reflexivity].
  destruct (b_age b); [discriminate|].
  unfold icuda. rewrite Hgpu. reflexivity.
Qed.

(** X17. On a machine with a GPU, once the optimizer and the criterion
    are built (a learning rate that is not negative, a valid loss type), if
    the first batch holds [None] for a side-feature that the mode reads,
    [fit] raises the attribute error of [None.cuda()] before any forward
    pass, and the parameters are untouched. *)
Theorem fit_batch_without_side_feature env m ld c b bs :
  cuda_is_available env = true ->
  fltb (lr m) f0 = false ->
  criterion_of (loss_type m) = Ok c ->
  (1 <= epochs m)%Z ->
  ld 0 = b :: bs ->
  batch_omits_required m b = true ->
  run_fit_ env m ld
  = (Raise AttributeError,
     {| model := set_training (set_device m CUDA) true;
        log := [EvModelTo CUDA; EvEpoch 1; EvBatch] |}).
Proof.
  intros Hgpu Hlr Hc Hn Hld Hom.
  rewrite (run_fit_started bce_with_logits_sum sgd_step tensor_item py_1e_5 env m ld Hlr Hc). unfold fit_device; rewrite Hgpu.
  replace (Z.to_nat (epochs m)) with (S (Z.to_nat (epochs m) - 1)) by lia.
  cbn [seq epoch_loop].
  unfold run_epoch, bind, get_model, put_model, emit; simpl.
  rewrite Hld; simpl.
  unfold train_batch, bind, emit, get_model, lift; simpl.
  rewrite batch_to_cuda_omitted; [reflexivity|exact Hgpu|exact Hom].
Qed.

(** X18. A negative learning rate stops [fit] when the optimizer is
    built, whatever the loss type and the loader: the model has been placed
    on its device, no epoch starts and the parameters are untouched. *)
Theorem fit_negative_learning_rate env m ld :
  fltb (lr m) f0 = true ->
  run_fit_ env m ld
  = (Raise InvalidLearningRate,
     {| model := set_device m (fit_device env);
        log := [EvModelTo (fit_device env)] |})
  /\ weights (model (snd (run_fit_ env m ld))) = weights m
  /\ count_events is_epoch (log (snd (run_fit_ env m ld))) = 0.
Proof.
  intros Hlr.
  assert (E : run_fit_ env m ld
              = (Raise InvalidLearningRate,
                 {| model := set_device m (fit_device env);
                    log := [EvModelTo (fit_device env)] |})).
  { unfold run_fit, fit, bind, get_model, put_model, emit, lift, sgd_init; simpl.
    now rewrite Hlr. }
  rewrite E. repeat split.
Qed.

End TrainingEdges.

(** ** More runs on concrete models *)

Module MoreRuns.
Import Demo Cases.

Lemma predict_gender_scores_witness :
  let m := model_of 0 "SL" 3 true in
  exists out,
    forward gpu_env m users items (Some genders) (Some ages) = Ok out
    /\ predict gpu_env m users items (Some genders) (Some ages) = Ok (cpu out)
    /\ length (fdata out) = length (idata users)
    /\ forall k u i g,
         nth_error (idata users) k = Some u ->
         nth_error (idata items) k = Some i ->
         nth_error (idata genders) k = Some g ->
         nth_error (fdata out) k = Some (score_gender (weights m) u i g).
Proof.
  intros m.
  apply (predict_gender_scores gpu_env m users items genders (Some ages));
    vm_compute; reflexivity.
Defined.

Lemma predict_age_scores_witness :
  let m := model_of 1 "SL" 3 true in
  exists out,
    forward gpu_env m users items None (Some ages) = Ok out
    /\ predict gpu_env m users items None (Some ages) = Ok (cpu out)
    /\ length (fdata out) = length (idata users)
    /\ forall k u i a,
         nth_error (idata users) k = Some u ->
         nth_error (idata items) k = Some i ->
         nth_error (idata ages) k = Some a ->
         nth_error (fdata out) k = Some (score_age (weights m) u i a).
Proof.
  intros m.
  apply (predict_age_scores gpu_env m users items None ages);
    vm_compute; reflexivity.
Defined.

Lemma predict_base_scores_witness :
  let m := model_of 3 "SL" 3 true in
  exists out,
    forward gpu_env m users items None (Some ages) = Ok out
    /\ predict gpu_env m users items None (Some ages) = Ok (cpu out)
    /\ length (fdata out) = length (idata users)
    /\ forall k u i,
         nth_error (idata users) k = Some u ->
         nth_error (idata items) k = Some i ->
         nth_error (fdata out) k = Some (spec_base_score (weights m) u i).
Proof.
  intros m.
  apply (predict_base_scores gpu_env m users items None (Some ages));
    try (vm_compute; reflexivity); vm_compute; discriminate.
Defined.

Lemma predict_one_user_many_items_witness :
  let m := model_of 3 "SL" 3 true in
  exists out,
    predict gpu_env m (indices CPU [1]%Z) items None None = Ok out
    /\ fdev out = CPU
    /\ length (fdata out) = length (idata items)
    /\ forall k i,
         nth_error (idata items) k = Some i ->
         nth_error (fdata out) k = Some (spec_base_score (weights m) 1 i).
Proof.
  intros m.
  apply (predict_one_user_many_items gpu_env m (indices CPU [1]%Z) items
           None None (u := 1%Z));
    try (vm_compute; reflexivity); vm_compute; discriminate.
Defined.

Lemma predict_length_mismatch_witness :
  let m := model_of 1 "SL" 3 true in
  forward gpu_env m users (indices CPU [0; 1; 0]%Z) None (Some ages)
  = Raise ShapeError
  /\ predict gpu_env m users (indices CPU [0; 1; 0]%Z) None (Some ages)
     = Raise ShapeError.
Proof.
  intros m.
  apply (predict_length_mismatch gpu_env m users (indices CPU [0; 1; 0]%Z)
           None (Some ages));
    try (vm_compute; reflexivity); vm_compute; discriminate.
Defined.

Lemma predict_index_out_of_range_witness :
  let m := model_of 2 "SL" 3 true in
  forward gpu_env m (indices CPU [0; -1]%Z) items (Some genders) (Some ages)
  = Raise IndexError
  /\ predict gpu_env m (indices CPU [0; -1]%Z) items (Some genders) (Some ages)
     = Raise IndexError.
Proof.
  intros m.
  apply (predict_index_out_of_range gpu_env m (indices CPU [0; -1]%Z) items
           (Some genders) (Some ages));
    vm_compute; reflexivity.
Defined.

Lemma predict_example_of_batch_witness :
  let m := model_of 2 "SL" 3 true in
  exists out x,
    predict gpu_env m users items (Some genders) (Some ages) = Ok out
    /\ nth_error (fdata out) 1 = Some x
    /\ predict gpu_env m (example_at 1 users) (example_at 1 items)
         (option_map (example_at 1) (Some genders))
         (option_map (example_at 1) (Some ages))
       = Ok {| fdata := [x]; fdev := CPU;
               frequires_grad := is_grad_enabled gpu_env |}.
Proof.
  intros m.
  apply (predict_example_of_batch gpu_env m users items (Some genders)
           (Some ages) (k := 1));
    try (vm_compute; reflexivity); simpl; lia.
Defined.

Lemma fit_mode_flag_witness :
  training (model (snd (fit_of gpu_env (model_of 2 "SL" 3 true) [two_examples])))
  = negb (is_ok (fst (fit_of gpu_env (model_of 2 "SL" 3 true) [two_examples]))).
Proof.
  apply (fit_mode_flag bce_unused sgd_rate_0 f32_item f64_1e_5 gpu_env
           (model_of 2 "SL" 3 true) (loader_of [two_examples]) (c := MSELoss)).
  - reflexivity.
  - reflexivity.
  - simpl; lia.
Defined.

Lemma fit_without_early_stop_witness :
  filter is_epoch
    (log (snd (fit_of gpu_env (model_of 2 "SL" 3 false) [two_examples])))
  = map EvEpoch (seq 1 (Z.to_nat (epochs (model_of 2 "SL" 3 false)))).
Proof.
  apply (fit_without_early_stop bce_unused sgd_rate_0 f32_item f64_1e_5 gpu_env
           (model_of 2 "SL" 3 false) (loader_of [two_examples]));
    vm_compute; reflexivity.
Defined.

Lemma fit_nan_loss_raises_witness :
  let m := model_of 3 "SL" 1 true in
  fit_of gpu_env m [nan_label]
  = (Raise (ValueError nan_message),
     {| model := in_first_epoch gpu_env m;
        log := [EvModelTo (fit_device gpu_env); EvEpoch 1; EvBatch; EvZeroGrad] |})
  /\ weights (model (snd (fit_of gpu_env m [nan_label]))) = weights m.
Proof.
  intros m.
  apply (fit_nan_loss_raises bce_unused sgd_rate_0 f32_item f64_1e_5 gpu_env m
           (loader_of [nan_label]) (c := MSELoss) (b := nan_label) (bs := [])
           (user := indices CUDA [0]%Z) (item := indices CUDA [0]%Z)
           (label := labels CUDA [B32 S754_nan]) (gender := None) (age := None)
           (loss := B32 S754_nan));
    try (vm_compute; reflexivity); simpl; lia.
Defined.

Lemma predict_after_fit_on_gpu_witness :
  predict gpu_env
    (model (snd (fit_of gpu_env (model_of 2 "SL" 3 true) [two_examples])))
    users items (Some genders) (Some ages)
  = Raise DeviceError.
Proof.
  apply (predict_after_fit_on_gpu bce_unused sgd_rate_0 f32_item f64_1e_5
           gpu_env gpu_env (model_of 2 "SL" 3 true) (loader_of [two_examples])
           users items (Some genders) (Some ages));
    reflexivity.
Defined.

Lemma regression_loss_never_negative_witness :
  match batch_loss bce_unused gpu_env MSELoss (model_of 2 "SL" 3 true)
          users items (Some genders) (Some ages)
          (labels CPU [f32_of_Z 1; f32_of_Z 0])
  with
  | Ok l => fltb l f0 = false
  | Raise _ => True
  end.
Proof.
  apply (regression_loss_never_negative bce_unused gpu_env
           (model_of 2 "SL" 3 true) users items (Some genders) (Some ages)
           (labels CPU [f32_of_Z 1; f32_of_Z 0]));
    reflexivity.
Defined.

Lemma fit_without_batches_witness :
  let m := model_of 2 "SL" 3 false in
  fst (fit_of gpu_env m []) = Ok tt
  /\ weights (model (snd (fit_of gpu_env m []))) = weights m
  /\ count_events is_batch (log (snd (fit_of gpu_env m []))) = 0.
Proof.
  intros m.
  apply (fit_without_batches bce_unused sgd_rate_0 f32_item f64_1e_5 gpu_env m
           (loader_of []) (c := MSELoss)).
  - reflexivity.
  - reflexivity.
  - intros k; reflexivity.
Defined.

Lemma fit_batch_without_side_feature_witness :
  let m := model_of 2 "SL" 3 true in
  fit_of gpu_env m [no_age_batch]
  = (Raise AttributeError,
     {| model := set_training (set_device m CUDA) true;
        log := [EvModelTo CUDA; EvEpoch 1; EvBatch] |}).
Proof.
  intros m.
  apply (fit_batch_without_side_feature bce_unused sgd_rate_0 f32_item f64_1e_5
           gpu_env m (loader_of [no_age_batch]) (c := MSELoss)
           (b := no_age_batch) (bs := []));
    try reflexivity; simpl; lia.
Defined.

Lemma fit_negative_learning_rate_witness :
  let m := with_lr (f64_of_Z (-1)) (model_of 2 "SL" 3 true) in
  fit_of gpu_env m [two_examples]
  = (Raise InvalidLearningRate,
     {| model := set_device m (fit_device gpu_env);
        log := [EvModelTo (fit_device gpu_env)] |})
  /\ weights (model (snd (fit_of gpu_env m [two_examples]))) = weights m
  /\ count_events is_epoch (log (snd (fit_of gpu_env m [two_examples]))) = 0.
Proof.
  intros m.
  apply (fit_negative_learning_rate bce_unused sgd_rate_0 f32_item f64_1e_5
           gpu_env m (loader_of [two_examples])).
  reflexivity.
Defined.

End MoreRuns.
